(** * Spartan PDF report generator: a shallow embedding

    The program ([Spartan_PDF V1.py]) fetches solar-design data from the
    Aurora web API and lays it out as a PDF report.  This development embeds
    the report pipeline as Rocq functions and states properties of it:

    - Python values that [response.json()] can return are the type [pyval];
      Python floats are the kernel's binary64 floats, Python ints are [Z];
    - a raising computation returns [Raise e], a returning one [Ok v];
    - the remote service, the image downloads, the logo file and reportlab's
      layout are the environment [world], read by the run and never changed;
    - the run threads a [state]: the flowables appended to the PDF so far and
      the trace of calls that left the process (HTTP requests, sleeps). *)

From Stdlib Require Import ZArith List String Ascii Bool Lia.
From Stdlib Require Import Floats DecimalString.
Import ListNotations.

Set Warnings "-inexact-float,-register-all".
Local Open Scope string_scope.
Local Open Scope Z_scope.
Local Open Scope list_scope.

(** ** Python values and exceptions *)

(** What [json.loads] builds: None, bool, int, float, str, list, dict.  A
    dict is an association list in insertion order (iteration order is
    observable); parsed JSON never repeats a key. *)
Inductive pyval : Type :=
| PNone
| PBool (b : bool)
| PInt (z : Z)
| PFloat (f : float)
| PStr (s : string)
| PList (l : list pyval)
| PDict (d : list (string * pyval)).

Inductive exn : Type :=
| AttributeError | TypeError | KeyError | IndexError
| ValueError | ZeroDivisionError | OverflowError.

Inductive exc (A : Type) : Type :=
| Ok (a : A)
| Raise (e : exn).
Arguments Ok {A} a.
Arguments Raise {A} e.

Definition exc_bind {A B} (m : exc A) (k : A -> exc B) : exc B :=
  match m with
  | Ok a => k a
  | Raise e => Raise e
  end.

Declare Scope exc_scope.
Delimit Scope exc_scope with exc.
Notation "x <- m ;; k" := (exc_bind m (fun x => k))
  (at level 61, m at next level, right associativity) : exc_scope.

Definition raises {A} (m : exc A) : bool :=
  match m with Ok _ => false | Raise _ => true end.

(** ** Dictionaries, truth values, iteration *)

Fixpoint lookup (k : string) (d : list (string * pyval)) : option pyval :=
  match d with
  | [] => None
  | (k', v) :: rest => if String.eqb k k' then Some v else lookup k rest
  end.

Definition has_key (k : string) (d : list (string * pyval)) : bool :=
  match lookup k d with Some _ => true | None => false end.

(** [d[k] = v] on a dict: an existing key keeps its place. *)
Fixpoint dict_set (d : list (string * pyval)) (k : string) (v : pyval)
  : list (string * pyval) :=
  match d with
  | [] => [(k, v)]
  | (k', v') :: rest =>
      if String.eqb k k' then (k', v) :: rest else (k', v') :: dict_set rest k v
  end.

(** [v.get(k, default)]: only a dict has [get]. *)
Definition py_get (v : pyval) (k : string) (default : pyval) : exc pyval :=
  match v with
  | PDict d => Ok (match lookup k d with Some x => x | None => default end)
  | _ => Raise AttributeError
  end.

(** [v[k]] for a string [k]. *)
Definition py_getitem (v : pyval) (k : string) : exc pyval :=
  match v with
  | PDict d => match lookup k d with Some x => Ok x | None => Raise KeyError end
  | _ => Raise TypeError
  end.

(** [v[0]]. *)
Definition py_first (v : pyval) : exc pyval :=
  match v with
  | PList (x :: _) => Ok x
  | PList [] => Raise IndexError
  | PStr (String c _) => Ok (PStr (String c EmptyString))
  | PStr EmptyString => Raise IndexError
  | PDict _ => Raise KeyError
  | _ => Raise TypeError
  end.

(** [bool(v)]. *)
Definition truthy (v : pyval) : bool :=
  match v with
  | PNone => false
  | PBool b => b
  | PInt z => negb (z =? 0)
  | PFloat f => negb (PrimFloat.eqb f 0%float)
  | PStr s => negb (String.eqb s "")
  | PList l => match l with [] => false | _ => true end
  | PDict d => match d with [] => false | _ => true end
  end.

Definition is_str (s : string) (v : pyval) : bool :=
  match v with PStr s' => String.eqb s' s | _ => false end.

Fixpoint is_prefix (p s : string) : bool :=
  match p, s with
  | EmptyString, _ => true
  | String a p', String b s' => Ascii.eqb a b && is_prefix p' s'
  | String _ _, EmptyString => false
  end.

Fixpoint is_substring (p s : string) : bool :=
  is_prefix p s ||
  match s with
  | EmptyString => false
  | String _ s' => is_substring p s'
  end.

(** [k in v] for a string [k]. *)
Definition py_in (k : string) (v : pyval) : exc bool :=
  match v with
  | PDict d => Ok (has_key k d)
  | PList l => Ok (existsb (is_str k) l)
  | PStr s => Ok (is_substring k s)
  | _ => Raise TypeError
  end.

Fixpoint chars (s : string) : list pyval :=
  match s with
  | EmptyString => []
  | String c s' => PStr (String c EmptyString) :: chars s'
  end.

(** The items a [for] loop or a comprehension runs over. *)
Definition py_iter (v : pyval) : exc (list pyval) :=
  match v with
  | PList l => Ok l
  | PStr s => Ok (chars s)
  | PDict d => Ok (map (fun kv => PStr (fst kv)) d)
  | _ => Raise TypeError
  end.

(** ** Strings

    A [string] is a text of characters with code points below 256.  Blanks
    are Python's for these code points: 9 to 13, 28 to 32, 133 (next line)
    and 160 (no-break space).  Case is worked out here for ASCII text only;
    [title] of any other text is the library's (see [text_title] below). *)

Definition is_space (c : ascii) : bool :=
  let n := N_of_ascii c in
  ((9 <=? n) && (n <=? 13) || (28 <=? n) && (n <=? 32) || (n =? 133) || (n =? 160))%N.

Definition is_upper (c : ascii) : bool :=
  let n := N_of_ascii c in ((65 <=? n) && (n <=? 90))%N.

Definition is_lower (c : ascii) : bool :=
  let n := N_of_ascii c in ((97 <=? n) && (n <=? 122))%N.

Definition to_upper (c : ascii) : ascii :=
  if is_lower c then ascii_of_N (N_of_ascii c - 32) else c.

Definition to_lower (c : ascii) : ascii :=
  if is_upper c then ascii_of_N (N_of_ascii c + 32) else c.

Fixpoint lstrip (s : string) : string :=
  match s with
  | String c s' => if is_space c then lstrip s' else s
  | EmptyString => EmptyString
  end.

Fixpoint rstrip (s : string) : string :=
  match s with
  | EmptyString => EmptyString
  | String c s' =>
      match rstrip s' with
      | EmptyString => if is_space c then EmptyString else String c EmptyString
      | r => String c r
      end
  end.

(** [s.strip()]. *)
Definition strip (s : string) : string := rstrip (lstrip s).

(** [s.title()] of ASCII text: a cased character is upper-cased after an
    uncased one and lower-cased after a cased one. *)
Fixpoint title_from (prev_cased : bool) (s : string) : string :=
  match s with
  | EmptyString => EmptyString
  | String c s' =>
      if is_upper c || is_lower c
      then String (if prev_cased then to_lower c else to_upper c) (title_from true s')
      else String c (title_from false s')
  end.

Definition title (s : string) : string := title_from false s.

Fixpoint is_ascii (s : string) : bool :=
  match s with
  | EmptyString => true
  | String c s' => (N_of_ascii c <? 128)%N && is_ascii s'
  end.

(** [s.replace('Z', '+00:00')]. *)
Fixpoint replace_Z (s : string) : string :=
  match s with
  | EmptyString => EmptyString
  | String c s' =>
      if Ascii.eqb c "Z" then "+00:00" ++ replace_Z s' else String c (replace_Z s')
  end.

(** Decimal digits of a natural number; [str] of an int. *)
Definition digits_of_N (n : N) : string := NilZero.string_of_uint (N.to_uint n).

Definition str_of_Z (z : Z) : string :=
  match z with
  | Zneg p => "-" ++ digits_of_N (Npos p)
  | _ => digits_of_N (Z.to_N z)
  end.

(** ** Numbers

    Python's [int] is unbounded ([Z]); its [float] is IEEE binary64, here the
    kernel's primitive float, read as sign, mantissa and exponent through
    [Prim2SF].  [bool] is a subclass of [int]. *)

Inductive number : Type :=
| NInt (z : Z)
| NFloat (f : float).

Definition as_number (v : pyval) : option number :=
  match v with
  | PBool b => Some (NInt (if b then 1 else 0))
  | PInt z => Some (NInt z)
  | PFloat f => Some (NFloat f)
  | _ => None
  end.

(** [float(z)]: the nearest double, ties to even; OverflowError when it is
    out of range. *)
Definition float_of_Z (z : Z) : exc float :=
  let f := SF2Prim (binary_normalize prec emax z 0 false) in
  if PrimFloat.is_infinity f then Raise OverflowError else Ok f.

Definition float_of_number (n : number) : exc float :=
  match n with
  | NInt z => float_of_Z z
  | NFloat f => Ok f
  end.

Definition SF_of_Z (z : Z) : spec_float :=
  match z with
  | Z0 => S754_zero false
  | Zpos p => S754_finite false p 0
  | Zneg p => S754_finite true p 0
  end.

(** [x / y] on two ints: the quotient rounded once to the nearest double. *)
Definition int_truediv (x y : Z) : exc float :=
  if y =? 0 then Raise ZeroDivisionError
  else
    let f := SF2Prim (SFdiv prec emax (SF_of_Z x) (SF_of_Z y)) in
    if PrimFloat.is_infinity f then Raise OverflowError else Ok f.

(** [a / b]. *)
Definition py_truediv (a b : pyval) : exc float :=
  match as_number a, as_number b with
  | Some (NInt x), Some (NInt y) => int_truediv x y
  | Some x, Some y =>
      (fx <- float_of_number x ;;
       fy <- float_of_number y ;;
       if PrimFloat.eqb fy 0%float then Raise ZeroDivisionError
       else Ok (fx / fy)%float)%exc
  | _, _ => Raise TypeError
  end.

(** [a * c] for a float constant [c]. *)
Definition py_mul_float (a : pyval) (c : float) : exc float :=
  match as_number a with
  | Some x => (fx <- float_of_number x ;; Ok (fx * c)%float)%exc
  | None => Raise TypeError
  end.

(** *** Fixed-point formatting: [format(x, ',.2f')] and the like *)

(** [num / den] rounded to the nearest integer, ties to even. *)
Definition round_half_even (num den : Z) : Z :=
  let q := num / den in
  let r := num mod den in
  match (2 * r ?= den) with
  | Lt => q
  | Gt => q + 1
  | Eq => if Z.even q then q else q + 1
  end.

(** [m * 2^e * 10^p], rounded to an integer. *)
Definition scaled (p : Z) (m : positive) (e : Z) : Z :=
  if 0 <=? e then Zpos m * 2 ^ e * 10 ^ p
  else round_half_even (Zpos m * 10 ^ p) (2 ^ (- e)).

(** The thousands separators, on the digits written backwards. *)
Fixpoint group3 (l : list ascii) : list ascii :=
  match l with
  | a :: b :: c :: ((_ :: _) as rest) => a :: b :: c :: ","%char :: group3 rest
  | _ => l
  end.

Definition with_commas (s : string) : string :=
  string_of_list_ascii (rev (group3 (rev (list_ascii_of_string s)))).

Fixpoint zeros (n : nat) : string :=
  match n with
  | O => EmptyString
  | S n' => String "0" (zeros n')
  end.

Definition pad_zeros (width : nat) (s : string) : string :=
  zeros (width - String.length s) ++ s.

(** The digits of the non-negative integer [n] read as a number with [p]
    decimals. *)
Definition fixed_digits (comma : bool) (p : nat) (n : Z) : string :=
  let unit := 10 ^ Z.of_nat p in
  let whole := digits_of_N (Z.to_N (n / unit)) in
  let whole := if comma then with_commas whole else whole in
  match p with
  | O => whole
  | _ => whole ++ "." ++ pad_zeros p (digits_of_N (Z.to_N (n mod unit)))
  end.

Definition sign_str (s : bool) : string := if s then "-" else "".

(** [format(f, '.pf')] ([',.pf'] when [comma]) of a float. *)
Definition format_float (comma : bool) (p : nat) (f : float) : string :=
  match Prim2SF f with
  | S754_nan => "nan"
  | S754_infinity s => sign_str s ++ "inf"
  | S754_zero s => sign_str s ++ fixed_digits comma p 0
  | S754_finite s m e => sign_str s ++ fixed_digits comma p (scaled (Z.of_nat p) m e)
  end.

(** [format(v, '.pf')] of any value: ints and bools go through [float];
    a str refuses the format code, other types refuse any format string. *)
Definition py_format_f (comma : bool) (p : nat) (v : pyval) : exc string :=
  match as_number v with
  | Some n => (f <- float_of_number n ;; Ok (format_float comma p f))%exc
  | None =>
      match v with
      | PStr _ => Raise ValueError
      | _ => Raise TypeError
      end
  end.

(** ** The document under construction *)

Local Open Scope float_scope.

Definition inch : float := 72.
(** [doc.width]: the letter page, 612 points wide, less the two 72 point
    margins. *)
Definition doc_width : float := 612 - 72 - 72.

Inductive style : Type := SpartanTitle | ReportHeader | CustomBody.

(** The rows of a table: cells are Python values, a [str] in most places. *)
Definition table : Type := list (list pyval).

Inductive flowable : Type :=
| Paragraph (text : string) (st : style)
| Spacer (width height : float)
| Table (data : table) (colWidths : list float)
| Image (drawWidth drawHeight : float).

(** What PIL reads from downloaded bytes or from the logo file: the pixel
    width and height, or nothing when they hold no image. *)
Definition image_data : Type := option (Z * Z).

(** What the canvas draws; [Body] stands for one drawing instruction of
    the laid-out flowables. *)
Inductive draw_op : Type :=
| Body (instruction : string)
| SetFont (name : string) (size : Z)
| DrawString (x y : float) (text : string).

Definition page : Type := list draw_op.

(** ** The environment of a run *)

(** The outcome of one HTTP request: [requests] raised (time-out, refused
    connection), or a response with its status and content. *)
Inductive http_reply (A : Type) : Type :=
| NoReply
| Reply (status : Z) (content : A).
Arguments NoReply {A}.
Arguments Reply {A} status content.

(** Everything the program reads from outside itself.  The first four
    fields stand for library code the program calls and does not contain. *)
Record world : Type := {
  (** [repr] of a float, a list or a dict *)
  py_repr : pyval -> string;
  (** [datetime.fromisoformat(s).strftime('%B %d, %Y')] on a non-empty [s],
      [None] when the parse raises *)
  iso_long_date : string -> option string;
  (** [s.title()] for a text [s] with a character outside ASCII (Unicode
      case mapping) *)
  text_title : string -> string;
  (** [stringWidth(text, "Helvetica", 9)] *)
  stringWidth : string -> float;
  (** the reply to GET /tenants/<tenant_id> *)
  tenant_reply : http_reply unit;
  (** the reply to GET /tenants/<tenant_id><endpoint>; the content is the
      parsed JSON body, [None] when the body is no JSON *)
  api_reply : string -> http_reply (option pyval);
  (** the reply to the n-th image download of the run, for its URL: the
      content type and the bytes *)
  image_reply : nat -> string -> http_reply (string * image_data);
  (** the logo: [None] when no path is configured or no file is there *)
  logo_file : option image_data;
  (** the pages [doc.build] lays the flowables out to, [None] when it raises *)
  layout : list flowable -> option (list page);
  (** [datetime.now().strftime("%B %d, %Y %I:%M %p")] when the footer of
      page k is drawn *)
  footer_time : Z -> string
}.

(** What leaves the process, in order. *)
Inductive event : Type :=
| CheckCredentials
| ApiRequest (endpoint : string)
| DownloadImage (url : pyval)
| Sleep (seconds : Z).

Record state : Type := {
  (** the flowables appended to [pdf.elements], in order *)
  elements : list flowable;
  trace : list event;
  (** calls of [download_image] so far *)
  fetches : nat;
  (** the pages written to the output file *)
  document : option (list page)
}.

Definition initial : state :=
  {| elements := []; trace := []; fetches := 0; document := None |}.

(** ** Stateful computations that may raise *)

Definition M (A : Type) : Type := state -> exc A * state.

Definition ret {A} (a : A) : M A := fun s => (Ok a, s).

Definition bind {A B} (m : M A) (k : A -> M B) : M B :=
  fun s =>
    match m s with
    | (Ok a, s') => k a s'
    | (Raise e, s') => (Raise e, s')
    end.

Definition lift {A} (m : exc A) : M A := fun s => (m, s).

Declare Scope run_scope.
Delimit Scope run_scope with run.
Notation "x <- m ;; k" := (bind m (fun x => k))
  (at level 61, m at next level, right associativity) : run_scope.
Notation "m ;;; k" := (bind m (fun _ => k))
  (at level 61, right associativity) : run_scope.

Definition emit (e : event) : M unit :=
  fun s => (Ok tt, {| elements := elements s; trace := trace s ++ [e];
                     fetches := fetches s; document := document s |}).

(** [self.elements.append(a); self.elements.append(b)] *)
Definition append (fs : list flowable) : M unit :=
  fun s => (Ok tt, {| elements := elements s ++ fs; trace := trace s;
                     fetches := fetches s; document := document s |}).

Definition http_error (status : Z) : bool := (400 <=? status)%Z && (status <? 600)%Z.

(** ** FooterCanvas (lines 162-187)

    reportlab's [Canvas] collects the instructions of the page being drawn
    and, at [showPage], hands the page to the document and starts a new one.
    [FooterCanvas] holds every page back at [showPage] and writes them all
    at [save], each with its footer. *)

Module FooterCanvas.

Record t : Type := {
  (** the instructions of the page being drawn *)
  code : page;
  (** [self.pages]: the pages held back *)
  pages : list page;
  (** the pages handed to the PDF document *)
  written : list page
}.

(** [__init__] *)
Definition init : t := {| code := []; pages := []; written := [] |}.

(** Any drawing call of the layout. *)
Definition draw (op : draw_op) (c : t) : t :=
  {| code := code c ++ [op]; pages := pages c; written := written c |}.

(** [showPage]: [self.pages.append(dict(self.__dict__)); self._startPage()] *)
Definition showPage (c : t) : t :=
  {| code := []; pages := pages c ++ [code c]; written := written c |}.

(** [canvas.Canvas.showPage(self)] *)
Definition Canvas_showPage (c : t) : t :=
  {| code := []; pages := pages c; written := written c ++ [code c] |}.

(** [self.__dict__.update(page)] *)
Definition restore (p : page) (c : t) : t :=
  {| code := p; pages := pages c; written := written c |}.

Definition page_info (page_num page_count : Z) : string :=
  "Page " ++ str_of_Z page_num ++ " of " ++ str_of_Z page_count.

Definition brand : string := " SPARTAN HOME SERVICES ".

(** The width of the letter page, [self._pagesize[0]]. *)
Definition width : float := 612.

Definition footer (w : world) (page_num page_count : Z) : list draw_op :=
  [ SetFont "Helvetica" 9;
    DrawString 72 30 (brand ++ footer_time w page_num);
    DrawString (width - 72 - stringWidth w (page_info page_num page_count)) 30
               (page_info page_num page_count) ].

Definition draw_footer (w : world) (page_num page_count : Z) (c : t) : t :=
  fold_left (fun c op => draw op c) (footer w page_num page_count) c.

(** The loop of [save], over [enumerate(self.pages, 1)] from [page_num] on. *)
Fixpoint stamp (w : world) (page_count page_num : Z) (ps : list page) (c : t) : t :=
  match ps with
  | [] => c
  | p :: rest =>
      stamp w page_count (page_num + 1) rest
            (Canvas_showPage (draw_footer w page_num page_count (restore p c)))
  end.

Definition save (w : world) (c : t) : t :=
  stamp w (Z.of_nat (List.length (pages c))) 1 (pages c) c.

(** What a layout does with the canvas: draws each page and closes it. *)
Definition draw_page (c : t) (p : page) : t :=
  showPage (fold_left (fun c op => draw op c) p c).

Definition draw_pages (ps : list page) (c : t) : t := fold_left draw_page ps c.

(** The text of the strings drawn on a page. *)
Definition texts (p : page) : list string :=
  flat_map (fun op => match op with DrawString _ _ s => [s] | _ => [] end) p.

End FooterCanvas.

Section Pipeline.

Variable w : world.

(** ** AuroraAPI (lines 44-160) *)

(** Every failure (a 401, 403 or 404, any other error status, an exception
    of [requests]) is logged and answered with [False]. *)
Definition validate_credentials : M bool :=
  (emit CheckCredentials ;;;
   ret match tenant_reply w with
       | NoReply => false
       | Reply status _ =>
           if ((status =? 401) || (status =? 403) || (status =? 404))%Z then false
           else negb (http_error status)
       end)%run.

(** The parsed body, or [{}] on an error status, a body that is no JSON, or
    an exception of [requests]. *)
Definition response_json (endpoint : string) : pyval :=
  match api_reply w endpoint with
  | NoReply => PDict []
  | Reply status body =>
      if http_error status then PDict []
      else match body with
           | Some data => data
           | None => PDict []
           end
  end.

Definition _make_request (endpoint : string) : M pyval :=
  (emit (ApiRequest endpoint) ;;; ret (response_json endpoint))%run.

Definition get_project (project_id : string) : M pyval :=
  _make_request ("/projects/" ++ project_id).

Definition get_design_summary (design_id : string) : M pyval :=
  _make_request ("/designs/" ++ design_id ++ "/summary").

Definition get_design_assets (design_id : string) : M pyval :=
  _make_request ("/designs/" ++ design_id ++ "/assets").

Definition get_design_pricing (design_id : string) : M pyval :=
  (data <- _make_request ("/designs/" ++ design_id ++ "/pricing") ;;
   lift (py_get data "pricing" (PDict [])))%run.

Definition count_fetch : M nat :=
  fun s => (Ok (fetches s),
            {| elements := elements s; trace := trace s;
               fetches := S (fetches s); document := document s |}).

(** [download_image]: the bytes when the response is an image, [None] on
    anything else; no exception leaves it.  A [url] that is no str has no
    [startswith]: the AttributeError is caught before any request. *)
Definition image_response (n : nat) (url : pyval) : option image_data :=
  match url with
  | PStr u =>
      match image_reply w n u with
      | NoReply => None
      | Reply status (content_type, content) =>
          if http_error status then None
          else if negb (is_prefix "image/" content_type) then None
          else Some content
      end
  | _ => None
  end.

Definition download_image (url : pyval) : M (option image_data) :=
  (emit (DownloadImage url) ;;;
   n <- count_fetch ;;
   ret (image_response n url))%run.

(** ** PDFGenerator (lines 189-320) *)

(** [imageHeight / float(imageWidth)] *)
Definition aspect_ratio (size : Z * Z) : exc float :=
  (fw <- float_of_Z (fst size) ;; py_truediv (PInt (snd size)) (PFloat fw))%exc.

Definition add_logo (logo : image_data) : M bool :=
  match logo with
  | Some size =>
      match aspect_ratio size with
      | Ok aspect =>
          let max_width := doc_width * 0.25 in
          (append [Image max_width (max_width * aspect); Spacer 1 (0.25 * inch)] ;;;
           ret true)%run
      | Raise _ => ret false
      end
  | None => ret false
  end.

Definition add_title (text : string) : M unit :=
  append [Paragraph ("<b>" ++ text ++ "</b>") SpartanTitle; Spacer 1 (0.25 * inch)].

Definition add_header (text : string) : M unit :=
  append [Paragraph text ReportHeader; Spacer 1 (0.25 * inch)].

Definition add_paragraph (text : string) : M unit :=
  append [Paragraph text CustomBody; Spacer 1 (0.12 * inch)].

Definition add_table (data : table) : M unit :=
  append [Table data [2.5 * inch; 3.5 * inch]; Spacer 1 (0.25 * inch)].

(** The drawn size of an image: [width_percentage] of the content width, the
    height capped at six inches. *)
Definition image_size (size : Z * Z) (width_percentage : float) : exc (float * float) :=
  (aspect <- aspect_ratio size ;;
   let max_width := doc_width * width_percentage in
   let max_height := 6 * inch in
   let drawHeight := max_width * aspect in
   if PrimFloat.ltb max_height drawHeight
   then (drawWidth <- py_truediv (PFloat max_height) (PFloat aspect) ;;
         Ok (drawWidth, max_height))
   else Ok (max_width, drawHeight))%exc.

(** [add_image(image_data)]: a [BytesIO] is always true; bytes that hold no
    image make [Image] raise, which is caught. *)
Definition add_image (image : image_data) : M bool :=
  match image with
  | Some size =>
      match image_size size 0.8 with
      | Ok (drawWidth, drawHeight) =>
          (append [Image drawWidth drawHeight; Spacer 1 (0.25 * inch)] ;;;
           ret true)%run
      | Raise _ => ret false
      end
  | None => ret false
  end.

(** [generate]: reportlab lays the flowables out and drives a [FooterCanvas]
    through the pages.  [elements] stays the record of what was appended:
    what [doc.build] does to the Python list it is handed is reportlab's and
    is not modelled. *)
Definition generate : M bool :=
  fun s =>
    match layout w (elements s) with
    | Some ps =>
        (Ok true,
         {| elements := elements s; trace := trace s; fetches := fetches s;
            document := Some (FooterCanvas.written
                                (FooterCanvas.save w
                                   (FooterCanvas.draw_pages ps FooterCanvas.init))) |})
    | None => (Ok false, s)
    end.

(** ** The mappers of AuroraSolarReport *)

(** [str(v)], also what an f-string puts for [{v}]. *)
Definition py_str (v : pyval) : string :=
  match v with
  | PStr s => s
  | PNone => "None"
  | PBool true => "True"
  | PBool false => "False"
  | PInt z => str_of_Z z
  | _ => py_repr w v
  end.

(** [v.title()]: only a str has it. *)
Definition py_title (v : pyval) : exc pyval :=
  match v with
  | PStr s => Ok (PStr (if is_ascii s then title s else text_title w s))
  | _ => Raise AttributeError
  end.

(** The date parse of lines 337-339; the empty string never parses. *)
Definition long_date (s : string) : option string :=
  match s with
  | EmptyString => None
  | _ => iso_long_date w s
  end.

Definition row (label : string) (value : pyval) : list pyval := [PStr label; value].

(** [format_project_overview] (lines 329-356). *)
Definition format_project_overview (project_data : pyval) : exc (option table) :=
  (if negb (truthy project_data) then Ok None
   else
     present <- py_in "project" project_data ;;
     if negb present then Ok None
     else
       project <- py_getitem project_data "project" ;;
       location <- py_get project "location" (PDict []) ;;
       address_components <- py_get location "property_address_components" (PDict []) ;;
       (* try: ... except: formatted_date = project.get('created_at', 'N/A') *)
       formatted_date <-
         match py_get project "created_at" (PStr "") with
         | Ok (PStr created_at) =>
             match long_date (replace_Z created_at) with
             | Some d => Ok (PStr d)
             | None => py_get project "created_at" (PStr "N/A")
             end
         | _ => py_get project "created_at" (PStr "N/A")
         end ;;
       first_name <- py_get project "customer_first_name" (PStr "") ;;
       last_name <- py_get project "customer_last_name" (PStr "") ;;
       let customer_name := strip (py_str first_name ++ " " ++ py_str last_name) in
       name <- py_get project "name" (PStr "N/A") ;;
       street_address <- py_get address_components "street_address" (PStr "N/A") ;;
       city <- py_get address_components "city" (PStr "N/A") ;;
       region <- py_get address_components "region" (PStr "N/A") ;;
       postal_code <- py_get address_components "postal_code" (PStr "N/A") ;;
       status <- py_get project "status" (PStr "N/A") ;;
       status <- py_title status ;;
       project_type <- py_get project "project_type" (PStr "N/A") ;;
       project_type <- py_title project_type ;;
       Ok (Some
             [ row "Project Details" (PStr "Information");
               row "Project Name" name;
               row "Customer Name"
                   (PStr (if String.eqb customer_name "" then "N/A" else customer_name));
               row "Street Address" street_address;
               row "City" city;
               row "State" region;
               row "ZIP Code" postal_code;
               row "Created Date" formatted_date;
               row "Status" status;
               row "Property Type" project_type ]))%exc.

(** The dict comprehension of line 406: [{item['component_type']: item for
    item in ...}].  Only the keys 'modules' and 'microinverters' are looked
    up afterwards, so an entry under a key that is no str is left out; a
    list or a dict is no key at all. *)
Fixpoint materials_of (items : list pyval) (acc : list (string * pyval))
  : exc (list (string * pyval)) :=
  match items with
  | [] => Ok acc
  | item :: rest =>
      (component_type <- py_getitem item "component_type" ;;
       match component_type with
       | PStr k => materials_of rest (dict_set acc k item)
       | PList _ | PDict _ => Raise TypeError
       | _ => materials_of rest acc
       end)%exc
  end.

(** The design metrics (lines 405-422): the system size in kW, kept for the
    financial rows, and the rows of the table. *)
Definition design_metrics (design_summary : pyval) : exc (float * table) :=
  (design_info <- py_get design_summary "design" (PDict []) ;;
   bill_of_materials <- py_get design_info "bill_of_materials" (PList []) ;;
   items <- py_iter bill_of_materials ;;
   materials <- materials_of items [] ;;
   modules <- py_get (PDict materials) "modules" (PDict []) ;;
   inverters <- py_get (PDict materials) "microinverters" (PDict []) ;;
   system_size_stc <- py_get design_info "system_size_stc" (PInt 0) ;;
   system_size <- py_truediv system_size_stc (PInt 1000) ;;
   energy_production <- py_get design_info "energy_production" (PDict []) ;;
   annual_production <- py_get energy_production "annual" (PInt 0) ;;
   arrays <- py_get design_info "arrays" (PList [PDict []]) ;;
   first_array <- py_first arrays ;;
   shading <- py_get first_array "shading" (PDict []) ;;
   solar_access <- py_get shading "solar_access" (PDict []) ;;
   solar_access <- py_get solar_access "annual" (PInt 0) ;;
   production <- py_format_f true 0 annual_production ;;
   quantity <- py_get modules "quantity" (PStr "N/A") ;;
   panel <- py_get modules "name" (PStr "N/A") ;;
   inverter <- py_get inverters "name" (PStr "N/A") ;;
   access <- (if truthy solar_access
              then (a <- py_format_f false 1 solar_access ;; Ok (a ++ "%")%string)
              else Ok "N/A") ;;
   Ok (system_size,
       [ row "Metric" (PStr "Value");
         row "System Size" (PStr (format_float false 2 system_size ++ " kW"));
         row "Annual Production" (PStr (production ++ " kWh"));
         row "Number of Panels" (PStr (py_str quantity));
         row "Panel Model" panel;
         row "Inverter Model" inverter;
         row "Solar Access" (PStr access) ]))%exc.

(** Line 432: [f"${price/(system_size*1000):,.2f}/W" if system_size > 0
    else "N/A"]. *)
Definition price_per_watt (price : pyval) (system_size : float) : exc string :=
  (if PrimFloat.ltb 0 system_size
   then (q <- py_truediv price (PFloat (system_size * 1000)) ;;
         Ok ("$" ++ format_float true 2 q ++ "/W")%string)
   else Ok "N/A")%exc.

(** The financial rows (lines 428-435). *)
Definition financial_data (design_pricing : pyval) (system_size : float) : exc table :=
  (price <- py_get design_pricing "system_price" (PInt 0) ;;
   system_price <- py_format_f true 2 price ;;
   per_watt <- price_per_watt price system_size ;;
   credit <- py_mul_float price 0.30 ;;
   net <- py_mul_float price 0.70 ;;
   Ok [ row "Item" (PStr "Amount");
        row "System Price" (PStr ("$" ++ system_price));
        row "Price per Watt" (PStr per_watt);
        row "Federal Tax Credit" (PStr ("$" ++ format_float true 2 credit));
        row "Net System Cost" (PStr ("$" ++ format_float true 2 net)) ])%exc.

(** ** The orchestrator: [generate_design_report] (lines 358-502) *)

(** Lines 397-401. *)
Definition project_section (project_data : pyval) : M unit :=
  if truthy project_data
  then (add_header "Project Overview" ;;;
        overview_data <- lift (format_project_overview project_data) ;;
        match overview_data with
        | Some ((_ :: _) as rows) => add_table rows
        | _ => ret tt
        end)%run
  else ret tt.

(** Lines 404-423; the system size is used again by the financial rows. *)
Definition design_section (design_summary : pyval) : M float :=
  (add_header "System Design Details" ;;;
   metrics <- lift (design_metrics design_summary) ;;
   add_table (snd metrics) ;;;
   ret (fst metrics))%run.

(** Lines 426-436. *)
Definition financial_section (design_pricing : pyval) (system_size : float) : M unit :=
  if truthy design_pricing
  then (add_header "Financial Overview" ;;;
        rows <- lift (financial_data design_pricing system_size) ;;
        add_table rows)%run
  else ret tt.

Definition unavailable : string := "System design images are currently unavailable.".

(** The filter of lines 446-449, for one asset. *)
Definition eligible (asset : pyval) : exc bool :=
  (type <- py_get asset "type" PNone ;;
   if is_str "layout_image" type then Ok true
   else (asset_type <- py_get asset "asset_type" PNone ;;
         Ok (is_str "CAD Screenshot" asset_type)))%exc.

Fixpoint layout_images (assets : list pyval) : exc (list pyval) :=
  match assets with
  | [] => Ok []
  | asset :: rest =>
      (keep <- eligible asset ;;
       others <- layout_images rest ;;
       Ok (if keep then asset :: others else others))%exc
  end.

Definition sleep (seconds : Z) : M unit := emit (Sleep seconds).

Definition max_retries : Z := 3.

(** [range(n)] *)
Definition range (n : Z) : list Z := map Z.of_nat (seq 0 (Z.to_nat n)).

(** The retry loop of lines 465-486 over the attempts left; [true] when it
    left by [break], with the image embedded. *)
Fixpoint download_with_retries (image_url : pyval) (attempts : list Z) : M bool :=
  match attempts with
  | [] => ret false
  | attempt :: rest =>
      (image_data <- download_image image_url ;;
       embedded <- match image_data with
                   | Some image => add_image image
                   | None => ret false
                   end ;;
       if embedded : bool then ret true
       else ((if (attempt <? max_retries - 1)%Z then sleep 2 else ret tt) ;;;
             download_with_retries image_url rest))%run
  end.

(** The loop of lines 455-486 over the eligible assets, threading
    [images_added]. *)
Fixpoint embed_images (assets : list pyval) (images_added : bool) : M bool :=
  match assets with
  | [] => ret images_added
  | asset :: rest =>
      (image_url <- lift (py_get asset "url" PNone) ;;
       if negb (truthy image_url) then embed_images rest images_added
       else (added <- download_with_retries image_url (range max_retries) ;;
             embed_images rest (images_added || added)))%run
  end.

(** Lines 439-490. *)
Definition visualization_section (design_assets : pyval) : M unit :=
  (assets <- lift (py_get design_assets "assets" PNone) ;;
   if truthy assets
   then (add_header "System Design Visualization" ;;;
         items <- lift (py_iter assets) ;;
         images <- lift (layout_images items) ;;
         match images with
         | [] => add_paragraph unavailable
         | _ => (images_added <- embed_images images false ;;
                 if images_added : bool then ret tt else add_paragraph unavailable)
         end)
   else ret tt)%run.

Definition given (project_id : option string) : option string :=
  match project_id with
  | Some EmptyString => None
  | _ => project_id
  end.

(** The body of the [try] (lines 361-498). *)
Definition report_body (design_id : string) (project_id : option string) : M bool :=
  (valid <- validate_credentials ;;
   if negb valid then ret false
   else
     design_summary <- get_design_summary design_id ;;
     if negb (truthy design_summary) then ret false
     else
       design_pricing <- get_design_pricing design_id ;;
       design_assets <- get_design_assets design_id ;;
       project_data <- match given project_id with
                       | Some id => get_project id
                       | None => ret PNone
                       end ;;
       match logo_file w with
       | Some logo => add_logo logo
       | None => ret false
       end ;;;
       add_title "Spartan EagleEye Report" ;;;
       project_section project_data ;;;
       system_size <- design_section design_summary ;;
       financial_section design_pricing system_size ;;;
       visualization_section design_assets ;;;
       generate)%run.

(** [generate_design_report]: any exception of the body is logged and
    answered with [False]. *)
Definition generate_design_report (design_id : string) (project_id : option string)
  (s : state) : bool * state :=
  match report_body design_id project_id s with
  | (Ok success, s') => (success, s')
  | (Raise _, s') => (false, s')
  end.

End Pipeline.

(** * Vocabulary of the properties *)

Definition is_image (f : flowable) : bool :=
  match f with Image _ _ => true | _ => false end.

Definition is_table (f : flowable) : bool :=
  match f with Table _ _ => true | _ => false end.

Definition is_paragraph (text : string) (f : flowable) : bool :=
  match f with Paragraph t _ => String.eqb t text | _ => false end.

Definition count (p : flowable -> bool) (fs : list flowable) : nat :=
  List.length (filter p fs).

(** A flowable that is neither the header nor the notice of the
    visualization section. *)
Definition plain (f : flowable) : bool :=
  negb (is_paragraph "System Design Visualization" f || is_paragraph unavailable f).

Definition no_visualization (s : state) : Prop := forallb plain (elements s) = true.

(** A fetch of the remote service or of an image. *)
Definition is_fetch (e : event) : bool :=
  match e with
  | ApiRequest _ | DownloadImage _ => true
  | _ => false
  end.

(** The value cell of the row with a given label. *)
Definition cell (label : string) (rows : table) : option pyval :=
  match find (fun r => match r with PStr l :: _ => String.eqb l label | _ => false end) rows with
  | Some [_; value] => Some value
  | _ => None
  end.

Definition value_of (label : string) (rows : exc table) : option pyval :=
  match rows with
  | Ok rows => cell label rows
  | Raise _ => None
  end.

Definition labels (rows : table) : list pyval := map (hd PNone) rows.

(** The rows of the design table. *)
Definition metric_rows (w : world) (design_summary : pyval) : exc table :=
  (metrics <- design_metrics w design_summary ;; Ok (snd metrics))%exc.

Definition overview_labels : list pyval :=
  map PStr [ "Project Details"; "Project Name"; "Customer Name"; "Street Address";
             "City"; "State"; "ZIP Code"; "Created Date"; "Status"; "Property Type" ].

Definition is_dict (v : pyval) : bool :=
  match v with PDict _ => true | _ => false end.

Definition is_string (v : pyval) : bool :=
  match v with PStr _ => true | _ => false end.

Definition optional (ok : pyval -> bool) (v : option pyval) : bool :=
  match v with Some x => ok x | None => true end.

(** A project payload of the shape the data model gives it: a mapping with
    the key "project" bound to a mapping, in which "location" and its
    "property_address_components" are mappings and "status" and
    "project_type" are strings, each when present. *)
Definition well_formed_project (payload : pyval) : bool :=
  match payload with
  | PDict d =>
      match lookup "project" d with
      | Some (PDict p) =>
          optional (fun location =>
                      match location with
                      | PDict l => optional is_dict (lookup "property_address_components" l)
                      | _ => false
                      end) (lookup "location" p)
          && optional is_string (lookup "status" p)
          && optional is_string (lookup "project_type" p)
      | _ => false
      end
  | _ => false
  end.

(** A payload that is a mapping without the key "project". *)
Definition lacks_project (payload : pyval) : bool :=
  match payload with
  | PDict d => negb (has_key "project" d)
  | _ => false
  end.

(** An assets response without the key "assets", or with an empty list. *)
Definition no_assets (design_assets : pyval) : bool :=
  match design_assets with
  | PDict d =>
      match lookup "assets" d with
      | None | Some (PList []) => true
      | _ => false
      end
  | _ => false
  end.

(** The n-th download of the run answers with an image that [add_image]
    can place. *)
Definition embeds (w : world) (n : nat) (url : pyval) : bool :=
  match image_response w n url with
  | Some (Some size) => negb (raises (image_size size 0.8))
  | _ => false
  end.

(** The events of a retry loop that made [n] attempts. *)
Fixpoint attempts (url : pyval) (n : nat) : list event :=
  match n with
  | O => []
  | S O => [DownloadImage url]
  | S n' => DownloadImage url :: Sleep 2 :: attempts url n'
  end.

(** Attempts the retry loop makes from the n-th download on, and whether one
    of them embeds the image. *)
Definition attempts_made (w : world) (n : nat) (url : pyval) : nat :=
  if embeds w n url then 1
  else if embeds w (S n) url then 2
  else 3.

Definition embedded (w : world) (n : nat) (url : pyval) : bool :=
  embeds w n url || embeds w (S n) url || embeds w (S (S n)) url.

(** The assets response holds one eligible asset, [asset], and its URL is
    [url]. *)
Definition sole_image (design_assets asset url : pyval) : Prop :=
  exists assets items,
    py_get design_assets "assets" PNone = Ok assets
    /\ truthy assets = true
    /\ py_iter assets = Ok items
    /\ layout_images items = Ok [asset]
    /\ py_get asset "url" PNone = Ok url
    /\ truthy url = true.

(** The pages [ps], numbered from [page_num] on, each followed by its
    footer. *)
Fixpoint with_footers (w : world) (page_count page_num : Z) (ps : list page) : list page :=
  match ps with
  | [] => []
  | p :: rest =>
      (p ++ FooterCanvas.footer w page_num page_count)
        :: with_footers w page_count (page_num + 1) rest
  end.

(** A computation that keeps the document free of the visualization
    section, whether it returns or raises. *)
Definition keeps {A} (m : M A) : Prop :=
  forall s, no_visualization s -> no_visualization (snd (m s)).

(** The flowables a report is made of: images, spacers, tables, and
    paragraphs with one of the six texts the program itself holds (the title,
    the four headers and the notice). *)
Definition report_flowable (f : flowable) : bool :=
  match f with
  | Paragraph text SpartanTitle => String.eqb text "<b>Spartan EagleEye Report</b>"
  | Paragraph text ReportHeader =>
      existsb (String.eqb text)
              [ "Project Overview"; "System Design Details"; "Financial Overview";
                "System Design Visualization" ]
  | Paragraph text CustomBody => String.eqb text unavailable
  | _ => true
  end.

(** The calls a run for [design_id] and [project_id] may make. *)
Definition report_call (design_id : string) (project_id : option string) (e : event) : bool :=
  match e with
  | CheckCredentials => true
  | ApiRequest endpoint =>
      existsb (String.eqb endpoint)
              [ "/designs/" ++ design_id ++ "/summary";
                "/designs/" ++ design_id ++ "/pricing";
                "/designs/" ++ design_id ++ "/assets" ]%string
      || match given project_id with
         | Some id => String.eqb endpoint ("/projects/" ++ id)
         | None => false
         end
  | DownloadImage _ => true
  | Sleep seconds => (seconds =? 2)%Z
  end.

(** [s'] comes from [s] by appending report flowables and making report
    calls; nothing appended before is touched. *)
Definition grows (design_id : string) (project_id : option string) (s s' : state) : Prop :=
  exists added calls,
    elements s' = elements s ++ added
    /\ trace s' = trace s ++ calls
    /\ forallb report_flowable added = true
    /\ forallb (report_call design_id project_id) calls = true
    /\ (fetches s <= fetches s')%nat.

(** A stage of the run before the PDF is written. *)
Definition stage (design_id : string) (project_id : option string) {A} (m : M A) : Prop :=
  forall s, grows design_id project_id s (snd (m s))
            /\ document (snd (m s)) = document s.

(** A computation that ends the run: it writes the document exactly when it
    returns [True]. *)
Definition ends (w : world) (design_id : string) (project_id : option string)
  (m : M bool) : Prop :=
  forall s,
    grows design_id project_id s (snd (m s))
    /\ match fst (m s) with
       | Ok true =>
           exists pages,
             layout w (elements (snd (m s))) = Some pages
             /\ document (snd (m s))
                = Some (with_footers w (Z.of_nat (List.length pages)) 1 pages)
       | _ => document (snd (m s)) = document s
       end.

(** A request for a project. *)
Definition is_project_request (e : event) : bool :=
  match e with
  | ApiRequest endpoint => is_prefix "/projects/" endpoint
  | _ => false
  end.



(** The value under a key, or a default. *)
Definition get_or (d : list (string * pyval)) (k : string) (default : pyval) : pyval :=
  match lookup k d with Some v => v | None => default end.

(** The two names of the customer as the f-string joins them. *)
Definition full_name (w : world) (project : list (string * pyval)) : string :=
  py_str w (get_or project "customer_first_name" (PStr ""))
  ++ " " ++ py_str w (get_or project "customer_last_name" (PStr "")).

(** A string of blanks only. *)
Fixpoint blank (s : string) : bool :=
  match s with
  | EmptyString => true
  | String c s' => is_space c && blank s'
  end.

(** The texts of the section headers among some flowables, in order. *)
Definition headers_of (fs : list flowable) : list string :=
  flat_map (fun f => match f with
                     | Paragraph text ReportHeader => [text]
                     | _ => []
                     end) fs.

(** [l] is [m] with some items left out. *)
Fixpoint subseq (l m : list string) : bool :=
  match l, m with
  | [], _ => true
  | _ :: _, [] => false
  | x :: l', y :: m' => if String.eqb x y then subseq l' m' else subseq l m'
  end.

Definition section_headers : list string :=
  [ "Project Overview"; "System Design Details"; "Financial Overview";
    "System Design Visualization" ].

(** A computation whose section headers are among [allowed], in that order. *)
Definition heads (allowed : list string) {A} (m : M A) : Prop :=
  forall s, exists added,
    elements (snd (m s)) = elements s ++ added
    /\ subseq (headers_of added) allowed = true.

(** A mapping with none of the keys. *)
Definition lacks (keys : list string) (d : list (string * pyval)) : bool :=
  forallb (fun k => negb (has_key k d)) keys.

Definition overview_keys : list string :=
  [ "location"; "created_at"; "customer_first_name"; "customer_last_name"; "name";
    "status"; "project_type" ].

Definition design_keys : list string :=
  [ "bill_of_materials"; "system_size_stc"; "energy_production"; "arrays" ].

(** What the loop over the eligible assets does from the n-th download of
    the run on: one retry loop for each asset that has a URL, in order.  Its
    calls, and the number of images it embeds. *)
Fixpoint loop_calls (w : world) (n : nat) (assets : list pyval) : list event :=
  match assets with
  | [] => []
  | asset :: rest =>
      match py_get asset "url" PNone with
      | Ok url =>
          if truthy url
          then attempts url (attempts_made w n url)
                 ++ loop_calls w (n + attempts_made w n url) rest
          else loop_calls w n rest
      | Raise _ => []
      end
  end.

Fixpoint loop_images (w : world) (n : nat) (assets : list pyval) : nat :=
  match assets with
  | [] => 0
  | asset :: rest =>
      match py_get asset "url" PNone with
      | Ok url =>
          if truthy url
          then (if embedded w n url then 1 else 0)
               + loop_images w (n + attempts_made w n url) rest
          else loop_images w n rest
      | Raise _ => 0
      end
  end.

(** * Worlds and payloads of the examples *)

Definition offline : world :=
  {| py_repr := fun _ => "";
     iso_long_date := fun _ => None;
     text_title := fun s => s;
     stringWidth := fun _ => 0;
     tenant_reply := NoReply;
     api_reply := fun _ => NoReply;
     image_reply := fun _ _ => NoReply;
     logo_file := None;
     layout := fun _ => None;
     footer_time := fun _ => "" |}.

(** A service that answers every request with [200]: the given JSON bodies
    per endpoint, and the given image replies. *)
Definition online (bodies : list (string * pyval))
  (images : nat -> string -> http_reply (string * image_data)) : world :=
  {| py_repr := fun _ => "";
     iso_long_date := fun _ => None;
     text_title := fun s => s;
     stringWidth := fun _ => 0;
     tenant_reply := Reply 200 tt;
     api_reply := fun endpoint =>
                    match lookup endpoint bodies with
                    | Some body => Reply 200 (Some body)
                    | None => Reply 404 None
                    end;
     image_reply := images;
     logo_file := None;
     layout := fun _ => Some [[Body "report"]];
     footer_time := fun _ => "November 03, 2026 09:00 AM" |}.

Definition rejected : world :=
  {| py_repr := fun _ => "";
     iso_long_date := fun _ => None;
     text_title := fun s => s;
     stringWidth := fun _ => 0;
     tenant_reply := Reply 401 tt;
     api_reply := fun _ => Reply 401 None;
     image_reply := fun _ _ => NoReply;
     logo_file := None;
     layout := fun _ => None;
     footer_time := fun _ => "" |}.

Definition layout_asset : pyval :=
  PDict [("type", PStr "layout_image"); ("url", PStr "https://cdn.example/layout.png")].

Definition one_layout_image : pyval := PDict [("assets", PList [layout_asset])].

(** An image host that fails twice and then serves an 800 x 600 picture. *)
Definition third_time_lucky : world :=
  online [("/designs/d1/assets", one_layout_image)]
         (fun n _ => if (n <? 2)%nat then NoReply
                     else Reply 200 ("image/png", Some (800, 600)%Z)).

(** An image host that answers every download with an error page. *)
Definition never_an_image : world :=
  online [("/designs/d1/assets", one_layout_image)]
         (fun _ _ => Reply 500 ("text/html", None)).

(** A design with no pricing, no assets and no project: the least the
    service can answer for a report to be written. *)
Definition bare_design : world :=
  online [("/designs/d1/summary", PDict [("design", PDict [("system_size_stc", PInt 6000)])]);
          ("/designs/d1/assets", PDict [])]
         (fun _ _ => NoReply).

(** A reply to the project request that carries no project. *)
Definition not_found : pyval := PDict [("message", PStr "Not Found")].

Definition maple_street : pyval :=
  PDict [("project",
          PDict [("name", PStr "12 Maple Street");
                 ("customer_first_name", PStr "Ada");
                 ("customer_last_name", PStr "Moreno");
                 ("location",
                  PDict [("property_address_components",
                          PDict [("city", PStr "Lansing"); ("region", PStr "MI")])]);
                 ("status", PStr "active")])].

(** A design whose bill of materials has an entry without "component_type". *)
Definition untyped_entry : list (string * pyval) :=
  [("name", PStr "SunPanel 400"); ("quantity", PInt 15)].

Definition untyped_design : list (string * pyval) :=
  [("system_size_stc", PInt 6000); ("bill_of_materials", PList [PDict untyped_entry])].

Definition untyped_component : pyval := PDict [("design", PDict untyped_design)].

Definition three_pages : world :=
  {| py_repr := fun _ => "";
     iso_long_date := fun _ => None;
     text_title := fun s => s;
     stringWidth := fun _ => 48;
     tenant_reply := Reply 200 tt;
     api_reply := fun _ => NoReply;
     image_reply := fun _ _ => NoReply;
     logo_file := None;
     layout := fun _ => Some [[Body "title"]; [Body "tables"]; [Body "images"]];
     footer_time := fun _ => "November 03, 2026 09:00 AM" |}.

(** A project whose status the service left null. *)
Definition null_status : pyval :=
  PDict [("project", PDict [("name", PStr "12 Maple Street"); ("status", PNone)])].

(** An assets response with a site photo only. *)
Definition only_a_photo : pyval :=
  PDict [("assets", PList [PDict [("type", PStr "site_photo");
                                  ("url", PStr "https://cdn.example/roof.jpg")]])].

(** A service whose design summary is empty. *)
Definition no_summary : world := online [] (fun _ _ => NoReply).

(** Two eligible assets, for the loop over assets. *)
Definition two_layout_images : pyval := PDict [("assets", PList [layout_asset; layout_asset])].

(** A design whose arrays list is empty. *)
Definition no_arrays : pyval := PDict [("design", PDict [("arrays", PList [])])].

(** A price sent as text. *)
Definition price_as_text : pyval := PDict [("system_price", PStr "1000")].


(** A tall picture, 600 x 2400 pixels. *)
Definition tall_picture : image_data := Some (600, 2400)%Z.

(** A service whose pricing body is a JSON array. *)
Definition pricing_as_list : world :=
  online [("/designs/d1/summary", PDict [("design", PDict [])]);
          ("/designs/d1/pricing", PList [PInt 1000])]
         (fun _ _ => NoReply).

(** A project created at a date the parser refuses, for a customer whose
    names are blanks. *)
Definition anonymous_fields : list (string * pyval) :=
  [("created_at", PStr "last Tuesday");
   ("customer_first_name", PStr "  ");
   ("customer_last_name", PStr "")].

Definition anonymous_project : pyval := PDict [("project", PDict anonymous_fields)].

(** An image host that fails twice and then serves, as image/png, bytes
    that hold no picture. *)
Definition no_picture_third : world :=
  online [("/designs/d1/assets", one_layout_image)]
         (fun n _ => if (n <? 2)%nat then NoReply
                     else Reply 200 ("image/png", None)).

(** A customer whose first name is a no-break space (code point 160) and
    whose last name is a next-line character (code point 133). *)
Definition blank_names : list (string * pyval) :=
  [("customer_first_name", PStr (String (ascii_of_N 160) EmptyString));
   ("customer_last_name", PStr (String (ascii_of_N 133) EmptyString))].

(** * Properties *)

(** ** The monad *)

Lemma bind_ok {A B} (m : M A) (k : A -> M B) (s s' : state) (a : A) :
  m s = (Ok a, s') -> bind m k s = k a s'.
Proof. intros H. unfold bind. now rewrite H. Qed.

Lemma bind_raise {A B} (m : M A) (k : A -> M B) (s s' : state) (e : exn) :
  m s = (Raise e, s') -> bind m k s = (Raise e, s').
Proof. intros H. unfold bind. now rewrite H. Qed.

(** ** Credentials *)

Lemma validate_credentials_run (w : world) (s : state) :
  snd (validate_credentials w s) =
  {| elements := elements s; trace := trace s ++ [CheckCredentials];
     fetches := fetches s; document := document s |}.
Proof. reflexivity. Qed.

(** C5: when the credential check answers false, the run returns failure and
    the only call it made is the credential check: no project, summary,
    pricing or assets request and no image download follows it. *)
Theorem credential_failure_short_circuits
  (w : world) (design_id : string) (project_id : option string) (s : state) :
  fst (validate_credentials w s) = Ok false ->
  let run := generate_design_report w design_id project_id s in
  fst run = false
  /\ elements (snd run) = elements s
  /\ document (snd run) = document s
  /\ exists calls,
       trace (snd run) = trace s ++ calls
       /\ calls = [CheckCredentials]
       /\ existsb is_fetch calls = false.
Proof.
  intros H. cbv zeta.
  unfold generate_design_report, report_body.
  rewrite (bind_ok _ _ s (snd (validate_credentials w s)) false).
  - cbn. repeat split. exists [CheckCredentials]. repeat split.
  - rewrite <- H. now destruct (validate_credentials w s).
Qed.

Lemma credential_failure_short_circuits_witness :
  fst (validate_credentials rejected initial) = Ok false
  /\ fst (generate_design_report rejected "d1" (Some "p1") initial) = false
  /\ trace (snd (generate_design_report rejected "d1" (Some "p1") initial))
     = [CheckCredentials].
Proof.
  split; [reflexivity|].
  destruct (credential_failure_short_circuits rejected "d1" (Some "p1") initial eq_refl)
    as (Hfail & _ & _ & calls & Htrace & -> & _).
  split; [exact Hfail | exact Htrace].
Defined.

(** ** The financial rows *)

Ltac exc_cases H :=
  repeat match type of H with
         | context [exc_bind ?m _] =>
             let E := fresh "E" in
             destruct m eqn:E; cbn [exc_bind] in H; try discriminate H
         end.



(** C8: a price of 1000 on a 4 kW system gives "$0.25/W", a credit of
    "$300.00" and a net cost of "$700.00"; on a system size of 0 the price per
    watt is "N/A". *)
Theorem financial_rows_of_1000_on_4_kW :
  let pricing := PDict [("system_price", PInt 1000)] in
  value_of "Price per Watt" (financial_data pricing 4) = Some (PStr "$0.25/W")
  /\ value_of "Federal Tax Credit" (financial_data pricing 4) = Some (PStr "$300.00")
  /\ value_of "Net System Cost" (financial_data pricing 4) = Some (PStr "$700.00")
  /\ value_of "Price per Watt" (financial_data pricing 0) = Some (PStr "N/A").
Proof. vm_compute. repeat split; reflexivity. Qed.







(** ** The project overview *)

Lemma lookup_nonempty (k : string) (d : list (string * pyval)) (v : pyval) :
  lookup k d = Some v -> truthy (PDict d) = true.
Proof. destruct d; [discriminate | reflexivity]. Qed.

(** C9, as stated, fails: a payload that contains the key "project" need not
    map to ten rows.  With a null status, [status.title()] raises
    AttributeError. *)
Lemma overview_of_null_status :
  py_in "project" null_status = Ok true
  /\ format_project_overview offline null_status = Raise AttributeError.
Proof. split; reflexivity. Qed.

(** C9, amended: for a payload whose "project" is a mapping in which
    "location" and its "property_address_components" are mappings and
    "status" and "project_type" are strings, each when present,
    [format_project_overview] returns ten rows of two cells, labelled, in
    this order: Project Details, Project Name, Customer Name, Street Address,
    City, State, ZIP Code, Created Date, Status, Property Type. *)
Theorem overview_has_ten_labelled_rows (w : world) (payload : pyval) :
  well_formed_project payload = true ->
  exists rows,
    format_project_overview w payload = Ok (Some rows)
    /\ List.length rows = 10%nat
    /\ labels rows = overview_labels
    /\ Forall (fun r => List.length r = 2%nat) rows.
Proof.
  intros H. destruct payload as [| | | | | |d]; try discriminate H.
  cbn [well_formed_project] in H.
  destruct (lookup "project" d) as [project|] eqn:Ep; [|discriminate H].
  destruct project as [| | | | | |p]; try discriminate H.
  unfold format_project_overview.
  assert (Hk : has_key "project" d = true) by (unfold has_key; now rewrite Ep).
  rewrite (lookup_nonempty _ _ _ Ep). cbn [negb py_in exc_bind py_getitem].
  rewrite Hk, Ep. cbn [negb exc_bind py_get].
  apply andb_prop in H as [H Htype]. apply andb_prop in H as [Hloc Hstatus].
  assert (Hl : exists l, match lookup "location" p with Some x => x | None => PDict [] end = PDict l
                         /\ optional is_dict (lookup "property_address_components" l) = true).
  { destruct (lookup "location" p) as [[| | | | | |l]|]; try discriminate Hloc.
    - exists l. auto.
    - exists []. auto. }
  destruct Hl as (l & -> & Ha). cbn [py_get exc_bind].
  assert (Hc : exists a, match lookup "property_address_components" l with
                         | Some x => x | None => PDict [] end = PDict a).
  { destruct (lookup "property_address_components" l) as [[| | | | | |a]|];
      try discriminate Ha; eauto. }
  destruct Hc as (a & ->). cbn [exc_bind].
  assert (Hd : exists date,
             match match lookup "created_at" p with Some x => x | None => PStr "" end with
             | PStr created_at =>
                 match long_date w (replace_Z created_at) with
                 | Some d0 => Ok (PStr d0)
                 | None => Ok match lookup "created_at" p with
                              | Some x => x | None => PStr "N/A" end
                 end
             | _ => Ok match lookup "created_at" p with Some x => x | None => PStr "N/A" end
             end = Ok date).
  { destruct (lookup "created_at" p) as [[| | | | c | |]|]; eauto;
      destruct (long_date w _); eauto. }
  destruct Hd as (date & ->). cbn [exc_bind].
  assert (Hs : exists st, py_title w match lookup "status" p with
                                   | Some x => x | None => PStr "N/A" end = Ok st).
  { destruct (lookup "status" p) as [[| | | | c | |]|]; try discriminate Hstatus;
      cbn [py_title]; eauto. }
  assert (Ht : exists ty, py_title w match lookup "project_type" p with
                                   | Some x => x | None => PStr "N/A" end = Ok ty).
  { destruct (lookup "project_type" p) as [[| | | | c | |]|]; try discriminate Htype;
      cbn [py_title]; eauto. }
  destruct Hs as (st & ->), Ht as (ty & ->). cbn [exc_bind].
  eexists. split; [reflexivity|].
  split; [reflexivity|]. split; [reflexivity|].
  repeat constructor.
Qed.

Lemma overview_has_ten_labelled_rows_witness :
  well_formed_project maple_street = true
  /\ exists rows,
       format_project_overview offline maple_street = Ok (Some rows)
       /\ List.length rows = 10%nat
       /\ labels rows = overview_labels
       /\ Forall (fun r => List.length r = 2%nat) rows.
Proof.
  split; [reflexivity|].
  exact (overview_has_ten_labelled_rows offline maple_street eq_refl).
Defined.

(** A payload without the key "project" maps to [None]. *)
Lemma overview_of_payload_without_project (w : world) (payload : pyval) :
  lacks_project payload = true ->
  format_project_overview w payload = Ok None.
Proof.
  intros H. destruct payload as [| | | | | |d]; try discriminate H.
  cbn [lacks_project] in H. unfold format_project_overview.
  destruct (truthy (PDict d)); [|reflexivity].
  cbn [negb py_in exc_bind]. now rewrite H.
Qed.

(** C2 fails on the code: for a payload that is a non-empty mapping without
    the key "project", [format_project_overview] returns [None] and no table
    is appended, but the "Project Overview" header is. *)
Theorem project_header_without_table (w : world) (project_data : pyval) (s : state) :
  lacks_project project_data = true ->
  truthy project_data = true ->
  format_project_overview w project_data = Ok None
  /\ project_section w project_data s =
       (Ok tt,
        {| elements := elements s ++ [Paragraph "Project Overview" ReportHeader;
                                      Spacer 1 (0.25 * inch)];
           trace := trace s; fetches := fetches s; document := document s |}).
Proof.
  intros Hlacks Htruthy.
  pose proof (overview_of_payload_without_project w project_data Hlacks) as Hnone.
  split; [exact Hnone|].
  unfold project_section. rewrite Htruthy.
  unfold bind, add_header, append, lift. now rewrite Hnone.
Qed.

Lemma project_header_without_table_witness :
  lacks_project not_found = true
  /\ truthy not_found = true
  /\ count (is_paragraph "Project Overview")
       (elements (snd (project_section offline not_found initial))) = 1%nat
  /\ count is_table (elements (snd (project_section offline not_found initial))) = 0%nat.
Proof.
  split; [reflexivity|]. split; [reflexivity|].
  destruct (project_header_without_table offline not_found initial eq_refl eq_refl)
    as [_ ->].
  split; reflexivity.
Defined.

(** ** The design metrics *)

(** C4 fails on the code: an entry of the bill of materials without the key
    "component_type" makes the design mapper raise KeyError; no default
    stands in for it. *)
Theorem component_type_has_no_default
  (w : world) (design_info entry : list (string * pyval)) (entries : list pyval) :
  lookup "bill_of_materials" design_info = Some (PList (PDict entry :: entries)) ->
  lookup "component_type" entry = None ->
  design_metrics w (PDict [("design", PDict design_info)]) = Raise KeyError.
Proof.
  intros Hbom Htype. unfold design_metrics.
  cbn [py_get lookup String.eqb Ascii.eqb Bool.eqb exc_bind].
  rewrite Hbom. cbn [py_iter exc_bind materials_of py_getitem]. now rewrite Htype.
Qed.

Lemma component_type_has_no_default_witness :
  design_metrics offline untyped_component = Raise KeyError
  /\ generate_design_report
       (online [("/designs/d1/summary", untyped_component)] (fun _ _ => NoReply))
       "d1" None initial
     = (false,
        {| elements := [Paragraph "<b>Spartan EagleEye Report</b>" SpartanTitle;
                        Spacer 1 (0.25 * inch);
                        Paragraph "System Design Details" ReportHeader;
                        Spacer 1 (0.25 * inch)];
           trace := [CheckCredentials; ApiRequest "/designs/d1/summary";
                     ApiRequest "/designs/d1/pricing"; ApiRequest "/designs/d1/assets"];
           fetches := 0; document := None |}).
Proof.
  split.
  - exact (component_type_has_no_default offline untyped_design untyped_entry []
             eq_refl eq_refl).
  - vm_compute. reflexivity.
Defined.

(** ** The image retry loop *)

Lemma count_app (p : flowable -> bool) (l l' : list flowable) :
  count p (l ++ l') = (count p l + count p l')%nat.
Proof. unfold count. now rewrite filter_app, length_app. Qed.

Lemma download_image_run (w : world) (url : pyval) (s : state) :
  download_image w url s =
    (Ok (image_response w (fetches s) url),
     {| elements := elements s; trace := trace s ++ [DownloadImage url];
        fetches := S (fetches s); document := document s |}).
Proof. reflexivity. Qed.

(** An attempt that embeds the image leaves the loop. *)
Lemma retry_embeds (w : world) (url : pyval) (attempt : Z) (rest : list Z) (s : state) :
  embeds w (fetches s) url = true ->
  exists drawWidth drawHeight,
    download_with_retries w url (attempt :: rest) s =
      (Ok true,
       {| elements := elements s ++ [Image drawWidth drawHeight; Spacer 1 (0.25 * inch)];
          trace := trace s ++ [DownloadImage url];
          fetches := S (fetches s); document := document s |}).
Proof.
  unfold embeds. intros H.
  destruct (image_response w (fetches s) url) as [[size|]|] eqn:E; try discriminate H.
  destruct (image_size size 0.8) as [[dw dh]|] eqn:Es; [|discriminate H].
  exists dw, dh. cbn [download_with_retries].
  rewrite (bind_ok _ _ _ _ _ (download_image_run w url s)), E.
  unfold bind, add_image. rewrite Es. reflexivity.
Qed.

(** An attempt that does not is followed by the pause, except the last. *)
Lemma retry_fails (w : world) (url : pyval) (attempt : Z) (rest : list Z) (s : state) :
  embeds w (fetches s) url = false ->
  download_with_retries w url (attempt :: rest) s =
    download_with_retries w url rest
      {| elements := elements s;
         trace := trace s ++ DownloadImage url
                    :: (if (attempt <? max_retries - 1)%Z then [Sleep 2] else []);
         fetches := S (fetches s); document := document s |}.
Proof.
  unfold embeds. intros H. cbn [download_with_retries].
  rewrite (bind_ok _ _ _ _ _ (download_image_run w url s)).
  assert (Hstep : forall st,
             match image_response w (fetches s) url with
             | Some image => add_image image
             | None => ret false
             end st = (Ok false, st)).
  { intros st. destruct (image_response w (fetches s) url) as [[size|]|]; try reflexivity.
    unfold add_image. destruct (image_size size 0.8) as [[dw dh]|]; [discriminate H|reflexivity]. }
  rewrite (bind_ok _ _ _ _ _ (Hstep _)).
  destruct (attempt <? max_retries - 1)%Z.
  - unfold bind, sleep, emit. cbn [elements trace fetches document].
    now rewrite <- app_assoc.
  - reflexivity.
Qed.

Lemma retry_policy (w : world) (url : pyval) (s : state) :
  let n := fetches s in
  exists added,
    download_with_retries w url (range max_retries) s =
      (Ok (embedded w n url),
       {| elements := elements s ++ added;
          trace := trace s ++ attempts url (attempts_made w n url);
          fetches := (n + attempts_made w n url)%nat; document := document s |})
    /\ count is_image added = (if embedded w n url then 1 else 0)%nat
    /\ count (is_paragraph unavailable) added = 0%nat.
Proof.
  cbv zeta. unfold embedded, attempts_made.
  change (range max_retries) with [0; 1; 2]%Z.
  destruct (embeds w (fetches s) url) eqn:E0.
  { destruct (retry_embeds w url 0 [1; 2]%Z s E0) as (dw & dh & ->).
    exists [Image dw dh; Spacer 1 (0.25 * inch)]. split; [|split; reflexivity].
    cbn [orb attempts]. now rewrite Nat.add_1_r. }
  rewrite (retry_fails w url 0 [1; 2]%Z s E0).
  change (0 <? max_retries - 1)%Z with true. cbv iota.
  set (s1 := {| elements := elements s; trace := _; fetches := _; document := _ |}).
  destruct (embeds w (S (fetches s)) url) eqn:E1.
  { destruct (retry_embeds w url 1 [2]%Z s1 E1) as (dw & dh & ->).
    exists [Image dw dh; Spacer 1 (0.25 * inch)]. split; [|split; reflexivity].
    subst s1. cbn [orb attempts elements trace fetches document].
    rewrite <- app_assoc. cbn [app]. now rewrite Nat.add_comm. }
  rewrite (retry_fails w url 1 [2]%Z s1 E1).
  change (1 <? max_retries - 1)%Z with true. cbv iota.
  set (s2 := {| elements := elements s1; trace := _; fetches := _; document := _ |}).
  destruct (embeds w (S (S (fetches s))) url) eqn:E2.
  { destruct (retry_embeds w url 2 [] s2 E2) as (dw & dh & ->).
    exists [Image dw dh; Spacer 1 (0.25 * inch)]. split; [|split; reflexivity].
    subst s2 s1. cbn [orb attempts elements trace fetches document].
    rewrite <- !app_assoc. cbn [app]. now rewrite Nat.add_comm. }
  rewrite (retry_fails w url 2 [] s2 E2).
  change (2 <? max_retries - 1)%Z with false. cbv iota.
  exists []. split; [|split; reflexivity].
  subst s2 s1. cbn [download_with_retries ret orb attempts elements trace fetches document].
  rewrite <- !app_assoc, app_nil_r. cbn [app]. now rewrite Nat.add_comm.
Qed.

Lemma attempts_made_bound (w : world) (n : nat) (url : pyval) :
  (1 <= attempts_made w n url <= 3)%nat.
Proof.
  unfold attempts_made.
  destruct (embeds w n url); [lia|]. destruct (embeds w (S n) url); lia.
Qed.

Lemma lift_ok {A} (m : exc A) (a : A) (s : state) :
  m = Ok a -> lift m s = (Ok a, s).
Proof. now intros ->. Qed.

(** The visualization section on a response with one eligible asset. *)
Lemma visualization_sole_image
  (w : world) (design_assets asset url : pyval) (s : state) :
  sole_image design_assets asset url ->
  let n := fetches s in
  exists added,
    visualization_section w design_assets s =
      (Ok tt,
       {| elements := elements s ++ added;
          trace := trace s ++ attempts url (attempts_made w n url);
          fetches := (n + attempts_made w n url)%nat; document := document s |})
    /\ count is_image added = (if embedded w n url then 1 else 0)%nat
    /\ count (is_paragraph unavailable) added = (if embedded w n url then 0 else 1)%nat.
Proof.
  intros (assets & items & Hget & Htruthy & Hiter & Himages & Hurl & Hturl). cbv zeta.
  unfold visualization_section.
  rewrite (bind_ok _ _ _ _ _ (lift_ok _ _ s Hget)).
  rewrite Htruthy.
  set (sh := {| elements := elements s ++ [Paragraph "System Design Visualization" ReportHeader;
                                          Spacer 1 (0.25 * inch)];
                trace := trace s; fetches := fetches s; document := document s |}).
  rewrite (bind_ok _ _ s sh tt) by reflexivity.
  rewrite (bind_ok _ _ _ _ _ (lift_ok _ _ sh Hiter)).
  rewrite (bind_ok _ _ _ _ _ (lift_ok _ _ sh Himages)).
  cbn [embed_images].
  destruct (retry_policy w url sh) as (added & Hrun & Himg & Hpar).
  cbv zeta in Hrun.
  assert (Hloop : embed_images w [asset] false sh =
                  (Ok (embedded w (fetches s) url),
                   {| elements := elements sh ++ added;
                      trace := trace sh ++ attempts url (attempts_made w (fetches sh) url);
                      fetches := (fetches sh + attempts_made w (fetches sh) url)%nat;
                      document := document sh |})).
  { cbn [embed_images].
    rewrite (bind_ok _ _ _ _ _ (lift_ok _ _ sh Hurl)).
    rewrite Hturl. cbn [negb].
    rewrite (bind_ok _ _ _ _ _ Hrun). reflexivity. }
  rewrite (bind_ok _ _ _ _ _ Hloop).
  subst sh. cbn [elements trace fetches document] in *.
  destruct (embedded w (fetches s) url).
  - exists ([Paragraph "System Design Visualization" ReportHeader; Spacer 1 (0.25 * inch)]
            ++ added).
    rewrite app_assoc. split; [reflexivity|].
    rewrite !count_app, Himg, Hpar. split; reflexivity.
  - exists ([Paragraph "System Design Visualization" ReportHeader; Spacer 1 (0.25 * inch)]
            ++ added ++ [Paragraph unavailable CustomBody; Spacer 1 (0.12 * inch)]).
    unfold add_paragraph, append. cbn [elements trace fetches document].
    rewrite !app_assoc. split; [reflexivity|].
    rewrite !count_app, Himg, Hpar. split; reflexivity.
Qed.

(** Every eligible asset is a mapping: the filter read its "type". *)
Lemma layout_images_are_mappings (items : list pyval) :
  forall images, layout_images items = Ok images -> forallb is_dict images = true.
Proof.
  induction items as [|item items IH]; intros images H; cbn [layout_images] in H.
  - now injection H as <-.
  - destruct (eligible item) as [keep|] eqn:Ek; cbn [exc_bind] in H; [|discriminate H].
    destruct (layout_images items) as [others|]; cbn [exc_bind] in H; [|discriminate H].
    injection H as <-. specialize (IH others eq_refl).
    destruct keep; [|exact IH]. cbn [forallb]. rewrite IH, andb_true_r.
    destruct item; try discriminate Ek. reflexivity.
Qed.

(** The loop over the assets runs one retry loop for each asset with a URL. *)
Lemma embed_images_loops (w : world) (assets : list pyval) :
  forallb is_dict assets = true ->
  forall (images_added : bool) (s : state),
    exists added,
      embed_images w assets images_added s =
        (Ok (images_added || negb (loop_images w (fetches s) assets =? 0)%nat),
         {| elements := elements s ++ added;
            trace := trace s ++ loop_calls w (fetches s) assets;
            fetches := (fetches s + List.length
                          (filter is_fetch (loop_calls w (fetches s) assets)))%nat;
            document := document s |})
      /\ count is_image added = loop_images w (fetches s) assets
      /\ count (is_paragraph unavailable) added = 0%nat.
Proof.
  induction assets as [|asset rest IH]; intros H images_added s.
  - exists []. cbn [embed_images ret loop_images loop_calls filter List.length Nat.eqb negb].
    rewrite !app_nil_r, orb_false_r, Nat.add_0_r. split; [now destruct s|]. now split.
  - cbn [forallb] in H. apply andb_prop in H as [Hd H].
    destruct asset as [| | | | | |d]; try discriminate Hd.
    cbn [embed_images loop_images loop_calls].
    rewrite (bind_ok _ _ _ _ _ (lift_ok (py_get (PDict d) "url" PNone) _ s eq_refl)).
    cbn [py_get]. set (url := match lookup "url" d with Some x => x | None => PNone end).
    destruct (truthy url) eqn:Hurl; cbn [negb].
    + destruct (retry_policy w url s) as (added1 & Hrun & Hi1 & Hp1). cbv zeta in Hrun.
      rewrite (bind_ok _ _ _ _ _ Hrun).
      match goal with
      | |- context [embed_images w rest ?b ?s1] =>
          destruct (IH H b s1) as (added2 & Hrest & Hi2 & Hp2)
      end.
      cbn [elements trace fetches document] in Hrest.
      exists (added1 ++ added2). rewrite Hrest, !count_app, Hi1, Hi2, Hp1, Hp2.
      split; [|now split]. f_equal.
      * f_equal. destruct (embedded w (fetches s) url), images_added; cbn;
          try reflexivity;
          destruct (loop_images w _ rest); reflexivity.
      * rewrite <- !app_assoc, filter_app, length_app. f_equal.
        assert (Hn : List.length (filter is_fetch
                                    (attempts url (attempts_made w (fetches s) url)))
                     = attempts_made w (fetches s) url).
        { unfold attempts_made.
          destruct (embeds w (fetches s) url); [reflexivity|].
          destruct (embeds w (S (fetches s)) url); reflexivity. }
        rewrite Hn. lia.
    + destruct (IH H images_added s) as (added2 & Hrest & Hi2 & Hp2).
      exists added2. rewrite Hrest. now split.
Qed.

(** C1, as stated, fails: a fetcher that fails twice and succeeds on the
    third call does not always give an image.  When the bytes it returns hold
    no picture, [add_image] answers false: no image is appended and the
    "unavailable" paragraph is. *)
Lemma third_download_without_a_picture :
  let url := PStr "https://cdn.example/layout.png" in
  image_response no_picture_third 0 url = None
  /\ image_response no_picture_third 1 url = None
  /\ image_response no_picture_third 2 url = Some None
  /\ count is_image
       (elements (snd (visualization_section no_picture_third one_layout_image initial)))
     = 0%nat
  /\ count (is_paragraph unavailable)
       (elements (snd (visualization_section no_picture_third one_layout_image initial)))
     = 1%nat.
Proof. cbv zeta. repeat split; vm_compute; reflexivity. Qed.

(** C1, amended: the retry loop of an asset makes one to three
    download-and-embed attempts, two seconds apart, and stops at the first
    that embeds the image (a download that answers with an image
    [add_image] can place); the loop over the eligible assets runs one such
    loop for each asset that has a URL, in order.  With one eligible asset
    whose first two attempts fail and whose third embeds, the section gains
    one image and no "unavailable" paragraph; when all three attempts fail
    it gains no image and one "unavailable" paragraph. *)
Theorem image_retry_policy (w : world) :
  (forall url s,
      exists added,
        download_with_retries w url (range max_retries) s =
          (Ok (embedded w (fetches s) url),
           {| elements := elements s ++ added;
              trace := trace s ++ attempts url (attempts_made w (fetches s) url);
              fetches := (fetches s + attempts_made w (fetches s) url)%nat;
              document := document s |})
        /\ count is_image added = (if embedded w (fetches s) url then 1 else 0)%nat)
  /\ (forall n url, (1 <= attempts_made w n url <= 3)%nat)
  /\ (forall assets images_added s,
        forallb is_dict assets = true ->
        exists added,
          embed_images w assets images_added s =
            (Ok (images_added || negb (loop_images w (fetches s) assets =? 0)%nat),
             {| elements := elements s ++ added;
                trace := trace s ++ loop_calls w (fetches s) assets;
                fetches := (fetches s + List.length
                              (filter is_fetch (loop_calls w (fetches s) assets)))%nat;
                document := document s |})
          /\ count is_image added = loop_images w (fetches s) assets
          /\ count (is_paragraph unavailable) added = 0%nat)
  /\ (forall design_assets assets items image images s,
        py_get design_assets "assets" PNone = Ok assets ->
        truthy assets = true ->
        py_iter assets = Ok items ->
        layout_images items = Ok (image :: images) ->
        let n := fetches s in
        let s' := snd (visualization_section w design_assets s) in
        trace s' = trace s ++ loop_calls w n (image :: images)
        /\ count is_image (elements s')
           = (count is_image (elements s) + loop_images w n (image :: images))%nat
        /\ count (is_paragraph unavailable) (elements s')
           = (count (is_paragraph unavailable) (elements s)
              + (if (loop_images w n (image :: images) =? 0)%nat then 1 else 0))%nat)
  /\ (forall design_assets asset url s,
        sole_image design_assets asset url ->
        let n := fetches s in
        let s' := snd (visualization_section w design_assets s) in
        (embeds w n url = false -> embeds w (S n) url = false ->
         embeds w (S (S n)) url = true ->
         trace s' = trace s ++ [DownloadImage url; Sleep 2; DownloadImage url; Sleep 2;
                                DownloadImage url]
         /\ count is_image (elements s') = (count is_image (elements s) + 1)%nat
         /\ count (is_paragraph unavailable) (elements s')
            = count (is_paragraph unavailable) (elements s))
        /\ (embeds w n url = false -> embeds w (S n) url = false ->
            embeds w (S (S n)) url = false ->
            trace s' = trace s ++ [DownloadImage url; Sleep 2; DownloadImage url; Sleep 2;
                                   DownloadImage url]
            /\ count is_image (elements s') = count is_image (elements s)
            /\ count (is_paragraph unavailable) (elements s')
               = (count (is_paragraph unavailable) (elements s) + 1)%nat)).
Proof.
  split; [|split; [|split; [|split]]].
  - intros url s. destruct (retry_policy w url s) as (added & H & Hi & _).
    exists added. split; assumption.
  - apply attempts_made_bound.
  - intros assets images_added s H. now apply embed_images_loops.
  - intros design_assets assets items image images s Hget Htruthy Hiter Himages. cbv zeta.
    unfold visualization_section.
    rewrite (bind_ok _ _ _ _ _ (lift_ok _ _ s Hget)), Htruthy.
    set (header := [Paragraph "System Design Visualization" ReportHeader;
                    Spacer 1 (0.25 * inch)]).
    set (sh := {| elements := elements s ++ header;
                  trace := trace s; fetches := fetches s; document := document s |}).
    rewrite (bind_ok _ _ s sh tt) by reflexivity.
    rewrite (bind_ok _ _ _ _ _ (lift_ok _ _ sh Hiter)).
    rewrite (bind_ok _ _ _ _ _ (lift_ok _ _ sh Himages)).
    destruct (embed_images_loops w (image :: images)
                (layout_images_are_mappings _ _ Himages) false sh)
      as (added & Hrun & Hi & Hp).
    rewrite (bind_ok _ _ _ _ _ Hrun). subst sh.
    cbn [orb elements trace fetches document] in *.
    assert (Hi1 : count is_image header = 0%nat) by reflexivity.
    assert (Hp1 : count (is_paragraph unavailable) header = 0%nat) by reflexivity.
    destruct (loop_images w (fetches s) (image :: images) =? 0)%nat eqn:Hzero;
      cbn [negb ret add_paragraph append snd elements trace].
    + apply Nat.eqb_eq in Hzero. unfold add_paragraph, append.
      cbn [snd elements trace]. rewrite !count_app, Hi1, Hp1, Hi, Hp, Hzero.
      repeat split; cbn; lia.
    + rewrite !count_app, Hi1, Hp1, Hi, Hp. repeat split; lia.
  - intros design_assets asset url s Hsole. cbv zeta.
    destruct (visualization_sole_image w design_assets asset url s Hsole)
      as (added & -> & Hi & Hp).
    cbv zeta in Hi, Hp. cbn [snd elements trace].
    rewrite !count_app, Hi, Hp. unfold embedded, attempts_made.
    split; intros -> -> ->; cbn [orb attempts]; repeat split; lia.
Qed.

Lemma image_retry_policy_witness :
  sole_image one_layout_image layout_asset (PStr "https://cdn.example/layout.png")
  /\ count is_image
       (elements (snd (visualization_section third_time_lucky one_layout_image initial)))
     = 1%nat
  /\ count (is_paragraph unavailable)
       (elements (snd (visualization_section third_time_lucky one_layout_image initial)))
     = 0%nat
  /\ count is_image
       (elements (snd (visualization_section never_an_image one_layout_image initial)))
     = 0%nat
  /\ count (is_paragraph unavailable)
       (elements (snd (visualization_section never_an_image one_layout_image initial)))
     = 1%nat
  /\ count is_image
       (elements (snd (visualization_section third_time_lucky two_layout_images initial)))
     = 2%nat
  /\ trace (snd (visualization_section third_time_lucky two_layout_images initial))
     = [ DownloadImage (PStr "https://cdn.example/layout.png"); Sleep 2;
         DownloadImage (PStr "https://cdn.example/layout.png"); Sleep 2;
         DownloadImage (PStr "https://cdn.example/layout.png");
         DownloadImage (PStr "https://cdn.example/layout.png") ].
Proof.
  assert (Hsole : sole_image one_layout_image layout_asset
                             (PStr "https://cdn.example/layout.png")).
  { exists (PList [layout_asset]), [layout_asset]. repeat split; reflexivity. }
  split; [exact Hsole|].
  destruct (image_retry_policy third_time_lucky) as (_ & _ & _ & Hmany & Hthird).
  destruct (image_retry_policy never_an_image) as (_ & _ & _ & _ & Hnever).
  destruct (Hthird one_layout_image layout_asset _ initial Hsole) as [Hthird' _].
  destruct (Hnever one_layout_image layout_asset _ initial Hsole) as [_ Hnever'].
  destruct (Hthird' eq_refl eq_refl eq_refl) as (_ & Hi & Hp).
  destruct (Hnever' eq_refl eq_refl eq_refl) as (_ & Hi' & Hp').
  destruct (Hmany two_layout_images (PList [layout_asset; layout_asset])
              [layout_asset; layout_asset] layout_asset [layout_asset] initial
              eq_refl eq_refl eq_refl eq_refl) as (Ht2 & Hi2 & _).
  repeat split; assumption.
Defined.

(** ** The footers *)

Lemma draw_all (ops : list draw_op) (c : FooterCanvas.t) :
  fold_left (fun c op => FooterCanvas.draw op c) ops c =
    {| FooterCanvas.code := FooterCanvas.code c ++ ops;
       FooterCanvas.pages := FooterCanvas.pages c;
       FooterCanvas.written := FooterCanvas.written c |}.
Proof.
  revert c. induction ops as [|op ops IH]; intros c; cbn [fold_left].
  - rewrite app_nil_r. now destruct c.
  - rewrite IH. cbn. now rewrite <- app_assoc.
Qed.

(** Laying pages out on a canvas writes nothing: every page is held back. *)
Lemma draw_pages_held (ps : list page) (c : FooterCanvas.t) :
  FooterCanvas.code c = [] ->
  FooterCanvas.draw_pages ps c =
    {| FooterCanvas.code := [];
       FooterCanvas.pages := FooterCanvas.pages c ++ ps;
       FooterCanvas.written := FooterCanvas.written c |}.
Proof.
  unfold FooterCanvas.draw_pages.
  revert c. induction ps as [|p ps IH]; intros c Hc; cbn [fold_left].
  - rewrite app_nil_r. destruct c. cbn in *. now subst.
  - rewrite IH.
    + unfold FooterCanvas.draw_page. rewrite draw_all, Hc. cbn.
      now rewrite <- app_assoc.
    + reflexivity.
Qed.

Lemma stamp_written (w : world) (page_count : Z) (ps : list page) :
  forall (page_num : Z) (c : FooterCanvas.t),
    FooterCanvas.written (FooterCanvas.stamp w page_count page_num ps c) =
      FooterCanvas.written c ++ with_footers w page_count page_num ps.
Proof.
  induction ps as [|p ps IH]; intros page_num c; cbn [FooterCanvas.stamp with_footers].
  - now rewrite app_nil_r.
  - rewrite IH. unfold FooterCanvas.draw_footer. rewrite draw_all. cbn.
    now rewrite <- app_assoc.
Qed.

Lemma with_footers_length (w : world) (page_count : Z) (ps : list page) :
  forall page_num, List.length (with_footers w page_count page_num ps) = List.length ps.
Proof. induction ps; intros; cbn; [reflexivity | now rewrite IHps]. Qed.

Lemma with_footers_nth (w : world) (page_count : Z) (ps : list page) :
  forall (page_num : Z) (i : nat) (body : page),
    nth_error ps i = Some body ->
    nth_error (with_footers w page_count page_num ps) i =
      Some (body ++ FooterCanvas.footer w (page_num + Z.of_nat i) page_count).
Proof.
  induction ps as [|p ps IH]; intros page_num [|i] body H; cbn in H; try discriminate.
  - injection H as ->. cbn [with_footers nth_error]. now rewrite Z.add_0_r.
  - cbn [with_footers nth_error]. rewrite (IH _ _ _ H). do 3 f_equal. lia.
Qed.

Lemma page_info_drawn (w : world) (body : page) (page_num page_count : Z) :
  In (FooterCanvas.page_info page_num page_count)
     (FooterCanvas.texts (body ++ FooterCanvas.footer w page_num page_count)).
Proof.
  unfold FooterCanvas.texts. rewrite flat_map_app. apply in_or_app. right.
  cbn. auto.
Qed.

(** C7: when the layout gives N pages, nothing is written before [save]
    (all N pages are held back), the document written has N pages, and its
    k-th page is the k-th laid-out page followed by a footer that draws the
    string "Page k of N". *)
Theorem footer_names_page_k_of_N (w : world) (s : state) (ps : list page) (k : Z) :
  layout w (elements s) = Some ps ->
  (1 <= k <= Z.of_nat (List.length ps))%Z ->
  let N := Z.of_nat (List.length ps) in
  FooterCanvas.written (FooterCanvas.draw_pages ps FooterCanvas.init) = []
  /\ FooterCanvas.pages (FooterCanvas.draw_pages ps FooterCanvas.init) = ps
  /\ exists doc body,
       generate w s = (Ok true, {| elements := elements s; trace := trace s;
                                   fetches := fetches s; document := Some doc |})
       /\ List.length doc = List.length ps
       /\ nth_error ps (Z.to_nat (k - 1)) = Some body
       /\ nth_error doc (Z.to_nat (k - 1)) = Some (body ++ FooterCanvas.footer w k N)
       /\ In ("Page " ++ str_of_Z k ++ " of " ++ str_of_Z N)%string
             (FooterCanvas.texts (body ++ FooterCanvas.footer w k N)).
Proof.
  intros Hlayout Hk. cbv zeta.
  rewrite (draw_pages_held ps FooterCanvas.init eq_refl). cbn [FooterCanvas.written
    FooterCanvas.pages FooterCanvas.init app].
  split; [reflexivity|]. split; [reflexivity|].
  destruct (nth_error ps (Z.to_nat (k - 1))) as [body|] eqn:Hbody.
  2:{ apply nth_error_None in Hbody. lia. }
  eexists _, body. unfold generate. rewrite Hlayout.
  rewrite (draw_pages_held ps FooterCanvas.init eq_refl).
  unfold FooterCanvas.save. cbn [FooterCanvas.pages FooterCanvas.init app].
  rewrite stamp_written. cbn [FooterCanvas.written app].
  split; [reflexivity|]. split; [apply with_footers_length|].
  split; [reflexivity|]. split.
  - cbn [FooterCanvas.written FooterCanvas.init app].
    rewrite (with_footers_nth _ _ _ _ _ _ Hbody). do 3 f_equal. lia.
  - apply page_info_drawn.
Qed.

Lemma footer_names_page_k_of_N_witness :
  layout three_pages (elements initial)
    = Some [[Body "title"]; [Body "tables"]; [Body "images"]]
  /\ exists doc body,
       generate three_pages initial =
         (Ok true, {| elements := []; trace := []; fetches := 0; document := Some doc |})
       /\ List.length doc = 3%nat
       /\ nth_error doc 1 = Some (body ++ FooterCanvas.footer three_pages 2 3)
       /\ In "Page 2 of 3" (FooterCanvas.texts (body ++ FooterCanvas.footer three_pages 2 3)).
Proof.
  split; [reflexivity|].
  destruct (footer_names_page_k_of_N three_pages initial _ 2 eq_refl ltac:(cbn; lia))
    as (_ & _ & doc & body & Hgen & Hlen & _ & Hnth & Hin).
  exists doc, body. repeat split; assumption.
Defined.

(** ** Sections that leave the visualization out *)

Lemma keeps_ret {A} (a : A) : keeps (ret a).
Proof. intros s H. exact H. Qed.

Lemma keeps_lift {A} (m : exc A) : keeps (lift m).
Proof. intros s H. exact H. Qed.

Lemma keeps_emit (e : event) : keeps (emit e).
Proof. intros s H. exact H. Qed.

Lemma keeps_bind {A B} (m : M A) (k : A -> M B) :
  keeps m -> (forall a, keeps (k a)) -> keeps (bind m k).
Proof.
  intros Hm Hk s H. unfold bind. specialize (Hm s H).
  destruct (m s) as [[a|e] s']; cbn [snd] in *; [now apply Hk | exact Hm].
Qed.

(** The same when the computation is known to return [a]. *)
Lemma keeps_bind_value {A B} (m : M A) (k : A -> M B) (a : A) :
  keeps m -> (forall s, fst (m s) = Ok a) -> keeps (k a) -> keeps (bind m k).
Proof.
  intros Hm Ha Hk s H. unfold bind. specialize (Hm s H). specialize (Ha s).
  destruct (m s) as [[a'|e] s']; cbn [fst snd] in *; [|discriminate Ha].
  injection Ha as ->. now apply Hk.
Qed.

Lemma keeps_append (fs : list flowable) : forallb plain fs = true -> keeps (append fs).
Proof.
  intros Hfs s H. unfold no_visualization in *. cbn [append snd elements].
  rewrite forallb_app, H, Hfs. reflexivity.
Qed.

Lemma keeps_add_table (rows : table) : keeps (add_table rows).
Proof. apply keeps_append. reflexivity. Qed.

Lemma keeps_add_logo (logo : image_data) : keeps (add_logo logo).
Proof.
  unfold add_logo. destruct logo as [size|]; [|apply keeps_ret].
  destruct (aspect_ratio size); [|apply keeps_ret].
  apply keeps_bind; [now apply keeps_append | intros; apply keeps_ret].
Qed.

Lemma keeps_make_request (w : world) (endpoint : string) : keeps (_make_request w endpoint).
Proof.
  unfold _make_request. apply keeps_bind; [apply keeps_emit | intros; apply keeps_ret].
Qed.

Lemma keeps_project_section (w : world) (project_data : pyval) :
  keeps (project_section w project_data).
Proof.
  unfold project_section. destruct (truthy project_data); [|apply keeps_ret].
  apply keeps_bind; [now apply keeps_append | intros _].
  apply keeps_bind; [apply keeps_lift | intros [[|r rows]|]];
    first [apply keeps_add_table | apply keeps_ret].
Qed.

Lemma keeps_design_section (w : world) (design_summary : pyval) :
  keeps (design_section w design_summary).
Proof.
  unfold design_section.
  apply keeps_bind; [now apply keeps_append | intros _].
  apply keeps_bind; [apply keeps_lift | intros metrics].
  apply keeps_bind; [apply keeps_add_table | intros; apply keeps_ret].
Qed.

Lemma keeps_financial_section (design_pricing : pyval) (system_size : float) :
  keeps (financial_section design_pricing system_size).
Proof.
  unfold financial_section. destruct (truthy design_pricing); [|apply keeps_ret].
  apply keeps_bind; [now apply keeps_append | intros _].
  apply keeps_bind; [apply keeps_lift | intros; apply keeps_add_table].
Qed.

Lemma keeps_generate (w : world) : keeps (generate w).
Proof.
  intros s H. unfold generate. destruct (layout w (elements s)); exact H.
Qed.

(** Without assets the visualization section does nothing. *)
Lemma visualization_skipped (w : world) (design_assets : pyval) (s : state) :
  no_assets design_assets = true ->
  visualization_section w design_assets s = (Ok tt, s).
Proof.
  intros H. destruct design_assets as [| | | | | |d]; try discriminate H.
  unfold visualization_section, bind, lift, py_get. cbn [no_assets] in H.
  destruct (lookup "assets" d) as [[| | | | |[|x l]|]|]; try discriminate H; reflexivity.
Qed.

(** C10: when the assets response has no "assets" key or an empty "assets"
    list, the visualization section appends nothing and requests nothing; a
    run from a document without the "System Design Visualization" header and
    the "unavailable" paragraph ends without them; and such a run can
    succeed. *)
Theorem no_assets_no_visualization
  (w : world) (design_id : string) (project_id : option string) (s : state) :
  no_assets (response_json w ("/designs/" ++ design_id ++ "/assets")) = true ->
  visualization_section w (response_json w ("/designs/" ++ design_id ++ "/assets")) s
    = (Ok tt, s)
  /\ (no_visualization s ->
      no_visualization (snd (generate_design_report w design_id project_id s)))
  /\ (exists w0 : world,
        no_assets (response_json w0 "/designs/d1/assets") = true
        /\ fst (generate_design_report w0 "d1" None initial) = true).
Proof.
  intros Hno. split; [now apply visualization_skipped|]. split.
  - assert (Hbody : keeps (report_body w design_id project_id)).
    { unfold report_body.
      apply keeps_bind; [|intros valid].
      { unfold validate_credentials.
        apply keeps_bind; [apply keeps_emit | intros; apply keeps_ret]. }
      destruct (negb valid); [apply keeps_ret|].
      apply keeps_bind; [apply keeps_make_request | intros design_summary].
      destruct (negb (truthy design_summary)); [apply keeps_ret|].
      apply keeps_bind; [|intros design_pricing].
      { unfold get_design_pricing.
        apply keeps_bind; [apply keeps_make_request | intros; apply keeps_lift]. }
      apply (keeps_bind_value _ _
               (response_json w ("/designs/" ++ design_id ++ "/assets")));
        [apply keeps_make_request | reflexivity |].
      apply keeps_bind; [|intros project_data].
      { destruct (given project_id); [apply keeps_make_request | apply keeps_ret]. }
      apply keeps_bind; [|intros _].
      { destruct (logo_file w); [apply keeps_add_logo | apply keeps_ret]. }
      apply keeps_bind; [now apply keeps_append | intros _].
      apply keeps_bind; [apply keeps_project_section | intros _].
      apply keeps_bind; [apply keeps_design_section | intros system_size].
      apply keeps_bind; [apply keeps_financial_section | intros _].
      apply keeps_bind; [|intros _; apply keeps_generate].
      intros s0 H0. now rewrite visualization_skipped. }
    intros Hs. specialize (Hbody s Hs). unfold generate_design_report.
    destruct (report_body w design_id project_id s) as [[success|e] s']; exact Hbody.
  - exists bare_design. split; vm_compute; reflexivity.
Qed.

Lemma no_assets_no_visualization_witness :
  no_assets (response_json bare_design "/designs/d1/assets") = true
  /\ no_visualization (snd (generate_design_report bare_design "d1" None initial))
  /\ fst (generate_design_report bare_design "d1" None initial) = true.
Proof.
  split; [reflexivity|]. split.
  - exact (proj1 (proj2 (no_assets_no_visualization bare_design "d1" None initial eq_refl))
             eq_refl).
  - vm_compute. reflexivity.
Defined.

(** ** Further properties of the mappers and of the orchestrator *)

(** A payload that is empty, or a mapping without the key "project", maps to
    [None]. *)
Theorem payload_without_project_maps_to_none (w : world) (payload : pyval) :
  truthy payload = false \/ lacks_project payload = true ->
  format_project_overview w payload = Ok None.
Proof.
  intros [H|H].
  - unfold format_project_overview. now rewrite H.
  - now apply overview_of_payload_without_project.
Qed.

Lemma payload_without_project_maps_to_none_witness :
  format_project_overview offline not_found = Ok None
  /\ format_project_overview offline (PDict []) = Ok None.
Proof.
  split.
  - exact (payload_without_project_maps_to_none offline not_found (or_intror eq_refl)).
  - exact (payload_without_project_maps_to_none offline (PDict []) (or_introl eq_refl)).
Defined.

Lemma lacks_lookup (keys : list string) (d : list (string * pyval)) (k : string) :
  lacks keys d = true -> In k keys -> lookup k d = None.
Proof.
  unfold lacks. rewrite forallb_forall. intros H Hin. specialize (H k Hin).
  unfold has_key in H. now destruct (lookup k d).
Qed.

(** A project that has none of the fields the overview reads (it may hold
    others) maps to the ten rows with "N/A" in every value cell. *)
Theorem overview_defaults (w : world) (payload project : list (string * pyval)) :
  lookup "project" payload = Some (PDict project) ->
  lacks overview_keys project = true ->
  format_project_overview w (PDict payload) =
    Ok (Some [ row "Project Details" (PStr "Information");
               row "Project Name" (PStr "N/A");
               row "Customer Name" (PStr "N/A");
               row "Street Address" (PStr "N/A");
               row "City" (PStr "N/A");
               row "State" (PStr "N/A");
               row "ZIP Code" (PStr "N/A");
               row "Created Date" (PStr "N/A");
               row "Status" (PStr "N/A");
               row "Property Type" (PStr "N/A") ]).
Proof.
  intros H Hl. unfold format_project_overview.
  assert (Hk : has_key "project" payload = true) by (unfold has_key; now rewrite H).
  rewrite (lookup_nonempty _ _ _ H). cbn [negb py_in exc_bind py_getitem].
  rewrite Hk, H. cbn [negb exc_bind py_get].
  rewrite !(lacks_lookup overview_keys project _ Hl) by (cbn; tauto).
  reflexivity.
Qed.

Lemma overview_defaults_witness :
  value_of "Status"
    (match format_project_overview offline
             (PDict [("project", PDict [("id", PStr "p1")])]) with
     | Ok (Some rows) => Ok rows
     | _ => Raise ValueError
     end) = Some (PStr "N/A").
Proof.
  rewrite (overview_defaults offline [("project", PDict [("id", PStr "p1")])]
             [("id", PStr "p1")] eq_refl eq_refl).
  reflexivity.
Defined.

(** A design that has none of the fields the metrics read (or a summary
    without the key "design") maps to the defaults: a size of 0.00 kW, a
    production of 0 kWh and "N/A" elsewhere. *)
Theorem design_defaults
  (w : world) (design_summary : pyval) (design_info : list (string * pyval)) :
  py_get design_summary "design" (PDict []) = Ok (PDict design_info) ->
  lacks design_keys design_info = true ->
  design_metrics w design_summary =
    Ok (0, [ row "Metric" (PStr "Value");
             row "System Size" (PStr "0.00 kW");
             row "Annual Production" (PStr "0 kWh");
             row "Number of Panels" (PStr "N/A");
             row "Panel Model" (PStr "N/A");
             row "Inverter Model" (PStr "N/A");
             row "Solar Access" (PStr "N/A") ]).
Proof.
  intros H Hl. unfold design_metrics. rewrite H. cbn [py_get exc_bind].
  rewrite !(lacks_lookup design_keys design_info _ Hl) by (cbn; tauto).
  vm_compute. reflexivity.
Qed.

Lemma design_defaults_witness :
  value_of "Inverter Model" (metric_rows offline (PDict [("id", PStr "d1")]))
  = Some (PStr "N/A")
  /\ value_of "System Size"
       (metric_rows offline (PDict [("design", PDict [("id", PStr "d1")])]))
     = Some (PStr "0.00 kW").
Proof.
  unfold metric_rows.
  rewrite (design_defaults offline (PDict [("id", PStr "d1")]) [] eq_refl eq_refl).
  rewrite (design_defaults offline (PDict [("design", PDict [("id", PStr "d1")])])
             [("id", PStr "d1")] eq_refl eq_refl).
  split; reflexivity.
Defined.

(** A system size of 6000 W is shown as "6.00 kW". *)
Theorem system_size_in_kilowatts (w : world) :
  value_of "System Size"
    (metric_rows w (PDict [("design", PDict [("system_size_stc", PInt 6000)])]))
  = Some (PStr "6.00 kW").
Proof. vm_compute. reflexivity. Qed.

(** With assets but none eligible, the section is the header and the
    "unavailable" paragraph, and no download is attempted. *)
Theorem no_eligible_asset_no_download
  (w : world) (design_assets assets : pyval) (items : list pyval) (s : state) :
  py_get design_assets "assets" PNone = Ok assets ->
  truthy assets = true ->
  py_iter assets = Ok items ->
  layout_images items = Ok [] ->
  visualization_section w design_assets s =
    (Ok tt,
     {| elements := elements s
                      ++ [ Paragraph "System Design Visualization" ReportHeader;
                           Spacer 1 (0.25 * inch);
                           Paragraph unavailable CustomBody;
                           Spacer 1 (0.12 * inch) ];
        trace := trace s; fetches := fetches s; document := document s |}).
Proof.
  intros Hget Htruthy Hiter Himages. unfold visualization_section.
  rewrite (bind_ok _ _ _ _ _ (lift_ok _ _ s Hget)), Htruthy.
  unfold bind, add_header, add_paragraph, append, lift.
  rewrite Hiter, Himages. cbn [elements trace fetches document].
  now rewrite <- app_assoc.
Qed.

Lemma no_eligible_asset_no_download_witness :
  trace (snd (visualization_section offline only_a_photo initial)) = []
  /\ count (is_paragraph unavailable)
       (elements (snd (visualization_section offline only_a_photo initial))) = 1%nat.
Proof.
  rewrite (no_eligible_asset_no_download offline only_a_photo _ _ initial
             eq_refl eq_refl eq_refl eq_refl).
  split; reflexivity.
Defined.

Lemma make_request_run (w : world) (endpoint : string) (s : state) :
  _make_request w endpoint s =
    (Ok (response_json w endpoint),
     {| elements := elements s; trace := trace s ++ [ApiRequest endpoint];
        fetches := fetches s; document := document s |}).
Proof. reflexivity. Qed.

(** An empty design summary ends the run in failure after two calls: the
    credential check and the summary request. *)
Theorem missing_summary_is_fatal
  (w : world) (design_id : string) (project_id : option string) (s : state) :
  fst (validate_credentials w s) = Ok true ->
  truthy (response_json w ("/designs/" ++ design_id ++ "/summary")) = false ->
  generate_design_report w design_id project_id s =
    (false,
     {| elements := elements s;
        trace := trace s ++ [CheckCredentials;
                             ApiRequest ("/designs/" ++ design_id ++ "/summary")];
        fetches := fetches s; document := document s |}).
Proof.
  intros Hvalid Hempty. unfold generate_design_report, report_body.
  rewrite (bind_ok _ _ s (snd (validate_credentials w s)) true).
  2:{ rewrite <- Hvalid. now destruct (validate_credentials w s). }
  cbn [negb]. rewrite validate_credentials_run. unfold get_design_summary.
  rewrite (bind_ok _ _ _ _ _ (make_request_run w _ _)), Hempty.
  cbn [negb ret elements trace fetches document]. now rewrite <- app_assoc.
Qed.

Lemma missing_summary_is_fatal_witness :
  generate_design_report no_summary "d1" None initial =
    (false,
     {| elements := []; trace := [CheckCredentials; ApiRequest "/designs/d1/summary"];
        fetches := 0; document := None |}).
Proof.
  exact (missing_summary_is_fatal no_summary "d1" None initial eq_refl eq_refl).
Defined.

(** ** What a run appends and calls *)

Lemma grows_refl (d : string) (p : option string) (s : state) : grows d p s s.
Proof. exists [], []. rewrite !app_nil_r. repeat split; auto. Qed.

Lemma grows_trans (d : string) (p : option string) (s1 s2 s3 : state) :
  grows d p s1 s2 -> grows d p s2 s3 -> grows d p s1 s3.
Proof.
  intros (a1 & c1 & He1 & Ht1 & Ha1 & Hc1 & Hf1) (a2 & c2 & He2 & Ht2 & Ha2 & Hc2 & Hf2).
  exists (a1 ++ a2), (c1 ++ c2).
  rewrite He2, He1, Ht2, Ht1, !app_assoc, !forallb_app, Ha1, Ha2, Hc1, Hc2.
  repeat split; auto. lia.
Qed.

Lemma stage_ret (d : string) (p : option string) {A} (a : A) : stage d p (ret a).
Proof. intros s. split; [apply grows_refl | reflexivity]. Qed.

Lemma stage_lift (d : string) (p : option string) {A} (m : exc A) : stage d p (lift m).
Proof. intros s. split; [apply grows_refl | reflexivity]. Qed.

Lemma stage_bind (d : string) (p : option string) {A B} (m : M A) (k : A -> M B) :
  stage d p m -> (forall a, stage d p (k a)) -> stage d p (bind m k).
Proof.
  intros Hm Hk s. unfold bind. destruct (Hm s) as [Hg Hd].
  destruct (m s) as [[a|e] s1]; cbn [snd] in *; [|now split].
  destruct (Hk a s1) as [Hg' Hd']. split; [now apply (grows_trans _ _ _ s1) | congruence].
Qed.

Lemma stage_emit (d : string) (p : option string) (e : event) :
  report_call d p e = true -> stage d p (emit e).
Proof.
  intros H s. split; [|reflexivity]. exists [], [e]. cbn.
  rewrite app_nil_r, H. repeat split; auto.
Qed.

Lemma stage_append (d : string) (p : option string) (fs : list flowable) :
  forallb report_flowable fs = true -> stage d p (append fs).
Proof.
  intros H s. split; [|reflexivity]. exists fs, []. cbn.
  rewrite app_nil_r, H. repeat split; auto.
Qed.

Lemma stage_count_fetch (d : string) (p : option string) : stage d p count_fetch.
Proof.
  intros s. split; [|reflexivity]. exists [], []. cbn.
  rewrite !app_nil_r. repeat split; auto.
Qed.

Lemma stage_make_request (w : world) (d : string) (p : option string) (endpoint : string) :
  report_call d p (ApiRequest endpoint) = true -> stage d p (_make_request w endpoint).
Proof.
  intros H. unfold _make_request.
  apply stage_bind; [now apply stage_emit | intros; apply stage_ret].
Qed.

Lemma stage_download_image (w : world) (d : string) (p : option string) (url : pyval) :
  stage d p (download_image w url).
Proof.
  unfold download_image. apply stage_bind; [now apply stage_emit | intros _].
  apply stage_bind; [apply stage_count_fetch | intros; apply stage_ret].
Qed.

Lemma stage_add_image (d : string) (p : option string) (image : image_data) :
  stage d p (add_image image).
Proof.
  unfold add_image. destruct image as [size|]; [|apply stage_ret].
  destruct (image_size size 0.8) as [[dw dh]|]; [|apply stage_ret].
  apply stage_bind; [now apply stage_append | intros; apply stage_ret].
Qed.

Lemma stage_add_logo (d : string) (p : option string) (logo : image_data) :
  stage d p (add_logo logo).
Proof.
  unfold add_logo. destruct logo as [size|]; [|apply stage_ret].
  destruct (aspect_ratio size); [|apply stage_ret].
  apply stage_bind; [now apply stage_append | intros; apply stage_ret].
Qed.

Lemma stage_add_table (d : string) (p : option string) (rows : table) :
  stage d p (add_table rows).
Proof. now apply stage_append. Qed.

Lemma stage_download_with_retries
  (w : world) (d : string) (p : option string) (url : pyval) (attempts : list Z) :
  stage d p (download_with_retries w url attempts).
Proof.
  induction attempts as [|attempt rest IH]; cbn [download_with_retries];
    [apply stage_ret|].
  apply stage_bind; [apply stage_download_image | intros image].
  apply stage_bind; [destruct image; [apply stage_add_image | apply stage_ret]|].
  intros [|]; [apply stage_ret|].
  apply stage_bind; [|intros _; exact IH].
  destruct (attempt <? max_retries - 1)%Z; [now apply stage_emit | apply stage_ret].
Qed.

Lemma stage_embed_images
  (w : world) (d : string) (p : option string) (assets : list pyval) :
  forall images_added, stage d p (embed_images w assets images_added).
Proof.
  induction assets as [|asset rest IH]; intros images_added; cbn [embed_images];
    [apply stage_ret|].
  apply stage_bind; [apply stage_lift | intros url].
  destruct (negb (truthy url)); [apply IH|].
  apply stage_bind; [apply stage_download_with_retries | intros; apply IH].
Qed.

Lemma stage_visualization_section
  (w : world) (d : string) (p : option string) (design_assets : pyval) :
  stage d p (visualization_section w design_assets).
Proof.
  unfold visualization_section.
  apply stage_bind; [apply stage_lift | intros assets].
  destruct (truthy assets); [|apply stage_ret].
  apply stage_bind; [now apply stage_append | intros _].
  apply stage_bind; [apply stage_lift | intros items].
  apply stage_bind; [apply stage_lift | intros [|image images]];
    [now apply stage_append|].
  apply stage_bind; [apply stage_embed_images | intros [|]];
    [apply stage_ret | now apply stage_append].
Qed.

Lemma stage_project_section (w : world) (d : string) (p : option string) (project_data : pyval) :
  stage d p (project_section w project_data).
Proof.
  unfold project_section. destruct (truthy project_data); [|apply stage_ret].
  apply stage_bind; [now apply stage_append | intros _].
  apply stage_bind; [apply stage_lift | intros [[|r rows]|]];
    first [apply stage_add_table | apply stage_ret].
Qed.

Lemma stage_design_section (w : world) (d : string) (p : option string) (design_summary : pyval) :
  stage d p (design_section w design_summary).
Proof.
  unfold design_section.
  apply stage_bind; [now apply stage_append | intros _].
  apply stage_bind; [apply stage_lift | intros metrics].
  apply stage_bind; [apply stage_add_table | intros; apply stage_ret].
Qed.

Lemma stage_financial_section
  (d : string) (p : option string) (design_pricing : pyval) (system_size : float) :
  stage d p (financial_section design_pricing system_size).
Proof.
  unfold financial_section. destruct (truthy design_pricing); [|apply stage_ret].
  apply stage_bind; [now apply stage_append | intros _].
  apply stage_bind; [apply stage_lift | intros; apply stage_add_table].
Qed.

Lemma ends_ret_false (w : world) (d : string) (p : option string) : ends w d p (ret false).
Proof. intros s. split; [apply grows_refl | reflexivity]. Qed.

Lemma ends_generate (w : world) (d : string) (p : option string) : ends w d p (generate w).
Proof.
  intros s. unfold generate.
  destruct (layout w (elements s)) as [pages|] eqn:E; cbn [fst snd elements document].
  - split; [exists [], []; cbn; rewrite !app_nil_r; repeat split; auto|].
    exists pages. split; [exact E|].
    rewrite (draw_pages_held pages FooterCanvas.init eq_refl).
    unfold FooterCanvas.save. cbn [FooterCanvas.pages FooterCanvas.init app].
    now rewrite stamp_written.
  - split; [apply grows_refl | reflexivity].
Qed.

Lemma ends_bind (w : world) (d : string) (p : option string) {A}
  (m : M A) (k : A -> M bool) :
  stage d p m -> (forall a, ends w d p (k a)) -> ends w d p (bind m k).
Proof.
  intros Hm Hk s. unfold bind. destruct (Hm s) as [Hg Hd].
  destruct (m s) as [[a|e] s1]; cbn [fst snd] in *; [|now split].
  destruct (Hk a s1) as [Hg' Hd']. split; [now apply (grows_trans _ _ _ s1)|].
  destruct (fst (k a s1)) as [[|]|]; [exact Hd' | congruence | congruence].
Qed.

Lemma report_call_design (d : string) (p : option string) (suffix : string) :
  In suffix ["/summary"; "/pricing"; "/assets"]%string ->
  report_call d p (ApiRequest ("/designs/" ++ d ++ suffix)) = true.
Proof.
  intros [<-|[<-|[<-|[]]]]; cbn [report_call existsb];
    rewrite String.eqb_refl; rewrite ?orb_true_r; reflexivity.
Qed.

Lemma report_body_ends (w : world) (d : string) (p : option string) :
  ends w d p (report_body w d p).
Proof.
  unfold report_body.
  apply ends_bind; [|intros valid].
  { unfold validate_credentials.
    apply stage_bind; [now apply stage_emit | intros; apply stage_ret]. }
  destruct (negb valid); [apply ends_ret_false|].
  apply ends_bind; [|intros design_summary].
  { apply stage_make_request, report_call_design. cbn. auto. }
  destruct (negb (truthy design_summary)); [apply ends_ret_false|].
  apply ends_bind; [|intros design_pricing].
  { unfold get_design_pricing. apply stage_bind; [|intros; apply stage_lift].
    apply stage_make_request, report_call_design. cbn. auto. }
  apply ends_bind; [|intros design_assets].
  { apply stage_make_request, report_call_design. cbn. auto. }
  apply ends_bind; [|intros project_data].
  { destruct (given p) as [id|] eqn:E; [|apply stage_ret].
    apply stage_make_request. cbn [report_call]. rewrite E, String.eqb_refl.
    apply orb_true_r. }
  apply ends_bind; [|intros _].
  { destruct (logo_file w); [apply stage_add_logo | apply stage_ret]. }
  apply ends_bind; [now apply stage_append | intros _].
  apply ends_bind; [apply stage_project_section | intros _].
  apply ends_bind; [apply stage_design_section | intros system_size].
  apply ends_bind; [apply stage_financial_section | intros _].
  apply ends_bind; [apply stage_visualization_section | intros _].
  apply ends_generate.
Qed.

Lemma run_ends (w : world) (d : string) (p : option string) (s : state) :
  let run := generate_design_report w d p s in
  grows d p s (snd run)
  /\ if fst run
     then exists pages,
            layout w (elements (snd run)) = Some pages
            /\ document (snd run)
               = Some (with_footers w (Z.of_nat (List.length pages)) 1 pages)
     else document (snd run) = document s.
Proof.
  cbv zeta. unfold generate_design_report.
  destruct (report_body_ends w d p s) as [Hg Hd].
  destruct (report_body w d p s) as [[[|]|e] s']; cbn [fst snd] in *; now split.
Qed.

(** The run only appends, and what it appends are images, spacers, tables
    and paragraphs with one of the six texts the program holds: text of the
    service reaches table cells only, never a paragraph. *)
Theorem report_is_built_from_fixed_paragraphs
  (w : world) (design_id : string) (project_id : option string) (s : state) :
  exists added,
    elements (snd (generate_design_report w design_id project_id s)) = elements s ++ added
    /\ forallb report_flowable added = true.
Proof.
  destruct (run_ends w design_id project_id s) as [(added & calls & He & _ & Ha & _) _].
  exists added. now split.
Qed.

Lemma report_call_no_project (d : string) (e : event) :
  report_call d None e = true -> is_project_request e = false.
Proof.
  destruct e as [|endpoint| |]; try reflexivity.
  cbn [report_call given existsb is_project_request]. rewrite !orb_false_r.
  intros H. apply orb_prop in H as [H|H]; [|apply orb_prop in H as [H|H]];
    apply String.eqb_eq in H; subst endpoint; reflexivity.
Qed.

(** The calls of a run are the credential check, the summary, pricing and
    assets requests of its design, the project request of its project, image
    downloads and two-second sleeps, and earlier calls stay in the trace;
    without a project id no project is requested. *)
Theorem report_calls_are_its_own
  (w : world) (design_id : string) (project_id : option string) (s : state) :
  exists calls,
    trace (snd (generate_design_report w design_id project_id s)) = trace s ++ calls
    /\ forallb (report_call design_id project_id) calls = true
    /\ (given project_id = None -> existsb is_project_request calls = false).
Proof.
  destruct (run_ends w design_id project_id s) as [(added & calls & _ & Ht & _ & Hc & _) _].
  exists calls. split; [exact Ht|]. split; [exact Hc|].
  intros Hnone. clear Ht. induction calls as [|e calls IH]; [reflexivity|].
  cbn [forallb existsb] in *. apply andb_prop in Hc as [He Hc].
  rewrite (IH Hc), orb_false_r.
  apply (report_call_no_project design_id).
  destruct e as [|endpoint| |]; try exact He.
  cbn [report_call given] in *. now rewrite Hnone in He.
Qed.

(** From a state without a document, the run returns [True] exactly when it
    wrote one, and the document is then the layout of the appended flowables
    with the footers. *)
Theorem report_written_iff_success
  (w : world) (design_id : string) (project_id : option string) (s : state) :
  document s = None ->
  let run := generate_design_report w design_id project_id s in
  (fst run = true <-> document (snd run) <> None)
  /\ (fst run = true ->
      exists pages,
        layout w (elements (snd run)) = Some pages
        /\ document (snd run)
           = Some (with_footers w (Z.of_nat (List.length pages)) 1 pages)).
Proof.
  intros Hnone. cbv zeta.
  destruct (run_ends w design_id project_id s) as [_ H]. cbv zeta in H.
  destruct (fst (generate_design_report w design_id project_id s)).
  - destruct H as (pages & Hl & Hd). split.
    + split; [intros _; rewrite Hd; discriminate | reflexivity].
    + intros _. now exists pages.
  - rewrite H, Hnone. split.
    + split; [discriminate | intros Hd; now elim Hd].
    + discriminate.
Qed.

Lemma report_written_iff_success_witness :
  fst (generate_design_report bare_design "d1" None initial) = true
  /\ document (snd (generate_design_report bare_design "d1" None initial)) <> None
  /\ document (snd (generate_design_report no_summary "d1" None initial)) = None.
Proof.
  pose proof (report_written_iff_success bare_design "d1" None initial eq_refl) as [Hb _].
  pose proof (report_written_iff_success no_summary "d1" None initial eq_refl) as [Hn _].
  cbv zeta in Hb, Hn.
  assert (Htrue : fst (generate_design_report bare_design "d1" None initial) = true)
    by (vm_compute; reflexivity).
  split; [exact Htrue|]. split; [exact (proj1 Hb Htrue)|].
  destruct (document (snd (generate_design_report no_summary "d1" None initial)))
    as [doc|] eqn:E; [|reflexivity].
  assert (Hfalse : fst (generate_design_report no_summary "d1" None initial) = true)
    by (apply Hn; discriminate).
  vm_compute in Hfalse. discriminate Hfalse.
Defined.

(** ** The image loop over any number of assets *)

Lemma layout_images_of_mappings (items : list pyval) :
  forallb is_dict items = true ->
  exists images,
    layout_images items = Ok images
    /\ forallb is_dict images = true
    /\ (List.length images <= List.length items)%nat.
Proof.
  induction items as [|item items IH]; intros H.
  - exists []. repeat split; auto.
  - cbn [forallb] in H. apply andb_prop in H as [Hd H].
    destruct (IH H) as (images & Hi & Hm & Hl).
    destruct item as [| | | | | |d]; try discriminate Hd.
    cbn [layout_images]. unfold eligible. cbn [py_get exc_bind].
    destruct (is_str "layout_image" _); cbn [exc_bind]; rewrite Hi; cbn [exc_bind].
    + exists (PDict d :: images). cbn. rewrite Hm. repeat split; auto. lia.
    + destruct (is_str "CAD Screenshot" _).
      * exists (PDict d :: images). cbn. rewrite Hm. repeat split; auto. lia.
      * exists images. repeat split; auto. cbn. lia.
Qed.

(** A retry loop returns, having appended one image or nothing. *)
Lemma retry_outcome (w : world) (url : pyval) :
  forall (tries : list Z) (s : state),
    exists (b : bool) (added : list flowable) (s' : state),
      download_with_retries w url tries s = (Ok b, s')
      /\ elements s' = elements s ++ added
      /\ (fetches s' <= fetches s + List.length tries)%nat
      /\ ((b = false /\ added = [])
          \/ (b = true /\ exists dw dh, added = [Image dw dh; Spacer 1 (0.25 * inch)])).
Proof.
  induction tries as [|attempt rest IH]; intros s.
  - exists false, [], s. cbn. rewrite app_nil_r.
    split; [reflexivity|]. split; [reflexivity|]. split; [lia|]. left. now split.
  - destruct (embeds w (fetches s) url) eqn:E.
    + destruct (retry_embeds w url attempt rest s E) as (dw & dh & ->).
      eexists true, _, _. split; [reflexivity|]. cbn [elements fetches List.length].
      split; [reflexivity|]. split; [lia|]. right. split; [reflexivity|]. now exists dw, dh.
    + rewrite (retry_fails w url attempt rest s E).
      match goal with
      | |- context [download_with_retries w url rest ?s1] =>
          destruct (IH s1) as (b & added & s' & -> & He & Hf & Hshape)
      end.
      cbn [elements fetches] in He, Hf.
      exists b, added, s'. split; [reflexivity|]. split; [exact He|].
      split; [cbn [List.length]; lia | exact Hshape].
Qed.

Lemma embed_images_run (w : world) (assets : list pyval) :
  forallb is_dict assets = true ->
  forall (images_added : bool) (s : state),
    exists (added : list flowable) (s' : state),
      embed_images w assets images_added s
        = (Ok (images_added || negb (count is_image added =? 0)%nat), s')
      /\ elements s' = elements s ++ added
      /\ (count is_image added <= List.length assets)%nat
      /\ count (is_paragraph unavailable) added = 0%nat
      /\ count (is_paragraph "System Design Visualization") added = 0%nat
      /\ (fetches s' <= fetches s + 3 * List.length assets)%nat.
Proof.
  induction assets as [|asset rest IH]; intros H images_added s.
  - exists [], s. cbn [embed_images ret]. rewrite app_nil_r, orb_false_r.
    repeat split; auto. cbn. lia.
  - cbn [forallb] in H. apply andb_prop in H as [Hd H].
    destruct asset as [| | | | | |d]; try discriminate Hd.
    cbn [embed_images].
    rewrite (bind_ok _ _ _ _ _ (lift_ok (py_get (PDict d) "url" PNone) _ s eq_refl)).
    destruct (truthy _) eqn:Hurl; cbn [negb].
    + destruct (retry_outcome w match lookup "url" d with Some x => x | None => PNone end
                  (range max_retries) s)
        as (b & added1 & s1 & Hrun & He1 & Hf1 & Hshape).
      change (List.length (range max_retries)) with 3%nat in Hf1.
      rewrite (bind_ok _ _ _ _ _ Hrun).
      destruct (IH H (images_added || b) s1)
        as (added2 & s' & Hrest & He & Hi2 & Hp2 & Hh2 & Hf).
      exists (added1 ++ added2), s'.
      rewrite Hrest, He, He1, app_assoc, !count_app, Hp2, Hh2.
      destruct Hshape as [[-> ->]|(-> & dw & dh & ->)]; cbn [count filter is_image
        is_paragraph List.length Nat.add app]; rewrite ?orb_false_r;
        repeat split; auto; try lia.
      cbn [Nat.eqb negb]. now rewrite !orb_true_r.
    + destruct (IH H images_added s) as (added2 & s' & Hrest & He & Hi2 & Hp2 & Hh2 & Hf).
      exists added2, s'. rewrite Hrest. repeat split; auto; cbn [List.length]; lia.
Qed.

(** For an assets list of mappings the visualization section never raises:
    it appends its header once, makes at most three downloads and embeds at
    most one image per listed asset, and appends the "unavailable" paragraph
    exactly when it embedded no image. *)
Theorem image_failures_never_abort
  (w : world) (design_assets : pyval) (item : pyval) (items : list pyval) (s : state) :
  py_get design_assets "assets" PNone = Ok (PList (item :: items)) ->
  forallb is_dict (item :: items) = true ->
  exists (added : list flowable) (s' : state),
    visualization_section w design_assets s = (Ok tt, s')
    /\ elements s' = elements s ++ added
    /\ count (is_paragraph "System Design Visualization") added = 1%nat
    /\ (count is_image added <= List.length (item :: items))%nat
    /\ count (is_paragraph unavailable) added
       = (if (count is_image added =? 0)%nat then 1 else 0)%nat
    /\ (fetches s' <= fetches s + 3 * List.length (item :: items))%nat.
Proof.
  intros Hget Hdicts. unfold visualization_section.
  rewrite (bind_ok _ _ _ _ _ (lift_ok _ _ s Hget)). cbn [truthy].
  set (sh := {| elements := elements s ++ [Paragraph "System Design Visualization" ReportHeader;
                                          Spacer 1 (0.25 * inch)];
                trace := trace s; fetches := fetches s; document := document s |}).
  rewrite (bind_ok _ _ s sh tt) by reflexivity.
  rewrite (bind_ok _ _ _ _ _ (lift_ok (py_iter (PList (item :: items))) _ sh eq_refl)).
  destruct (layout_images_of_mappings _ Hdicts) as (images & Himages & Hmaps & Hlen).
  rewrite (bind_ok _ _ _ _ _ (lift_ok _ _ sh Himages)).
  destruct images as [|image images].
  - exists [Paragraph "System Design Visualization" ReportHeader; Spacer 1 (0.25 * inch);
            Paragraph unavailable CustomBody; Spacer 1 (0.12 * inch)].
    eexists. split; [reflexivity|]. unfold add_paragraph, append. subst sh.
    cbn [snd elements fetches]. rewrite <- app_assoc.
    repeat split; try reflexivity; cbn; lia.
  - destruct (embed_images_run w (image :: images) Hmaps false sh)
      as (added & s' & Hrun & He & Hi & Hp & Hh & Hf).
    rewrite (bind_ok _ _ _ _ _ Hrun). cbn [orb].
    subst sh. cbn [elements fetches] in He, Hf. rewrite <- app_assoc in He.
    set (header := [Paragraph "System Design Visualization" ReportHeader;
                    Spacer 1 (0.25 * inch)]) in *.
    set (notice := [Paragraph unavailable CustomBody; Spacer 1 (0.12 * inch)]).
    assert (Hh1 : count (is_paragraph "System Design Visualization") header = 1%nat)
      by reflexivity.
    assert (Hi1 : count is_image header = 0%nat) by reflexivity.
    assert (Hp1 : count (is_paragraph unavailable) header = 0%nat) by reflexivity.
    assert (Hh3 : count (is_paragraph "System Design Visualization") notice = 0%nat)
      by reflexivity.
    assert (Hi3 : count is_image notice = 0%nat) by reflexivity.
    assert (Hp3 : count (is_paragraph unavailable) notice = 1%nat) by reflexivity.
    destruct (count is_image added =? 0)%nat eqn:Hzero; cbn [negb].
    + exists (header ++ added ++ notice).
      eexists. split; [reflexivity|]. unfold add_paragraph, append.
      cbn [snd elements fetches]. fold notice. rewrite He, <- !app_assoc.
      split; [reflexivity|].
      apply Nat.eqb_eq in Hzero.
      rewrite !count_app, Hh, Hp, Hh1, Hi1, Hp1, Hh3, Hi3, Hp3, Hzero.
      cbn [List.length] in *. repeat split; try reflexivity; lia.
    + exists (header ++ added), s'.
      split; [reflexivity|]. split; [exact He|].
      rewrite !count_app, Hh, Hp, Hh1, Hi1, Hp1. cbn [Nat.add]. rewrite Hzero.
      cbn [List.length] in *. repeat split; try reflexivity; lia.
Qed.

Lemma image_failures_never_abort_witness :
  exists (added : list flowable) (s' : state),
    visualization_section never_an_image two_layout_images initial = (Ok tt, s')
    /\ elements s' = elements initial ++ added
    /\ count (is_paragraph "System Design Visualization") added = 1%nat
    /\ (count is_image added <= 2)%nat
    /\ count (is_paragraph unavailable) added
       = (if (count is_image added =? 0)%nat then 1 else 0)%nat
    /\ (fetches s' <= fetches initial + 3 * 2)%nat.
Proof.
  exact (image_failures_never_abort never_an_image two_layout_images layout_asset
           [layout_asset] initial eq_refl eq_refl).
Defined.

(** ** The shape and the edges of the tables *)

Ltac exc_goal :=
  repeat match goal with
         | |- context [exc_bind ?m _] =>
             let E := fresh "E" in
             destruct m eqn:E; cbn [exc_bind raises]; try reflexivity
         end.

(** Whenever [format_project_overview] returns rows, they are the ten
    labelled rows of two cells, whatever the payload holds. *)
Theorem overview_rows_are_labelled (w : world) (payload : pyval) (rows : table) :
  format_project_overview w payload = Ok (Some rows) ->
  labels rows = overview_labels
  /\ Forall (fun r => List.length r = 2%nat) rows.
Proof.
  intros H. unfold format_project_overview in H.
  destruct (negb (truthy payload)); [discriminate H|].
  destruct (py_in "project" payload) as [[|]|]; cbn [exc_bind negb] in H;
    try discriminate H.
  exc_cases H.
  injection H as <-. split; [reflexivity | repeat constructor].
Qed.

Lemma overview_rows_are_labelled_witness :
  exists rows,
    format_project_overview offline maple_street = Ok (Some rows)
    /\ labels rows = overview_labels
    /\ Forall (fun r => List.length r = 2%nat) rows.
Proof.
  eexists. split; [vm_compute; reflexivity|].
  apply (overview_rows_are_labelled offline maple_street). vm_compute. reflexivity.
Defined.

(** Whenever the design mapper returns, its table is the seven labelled
    rows; whenever the financial mapper returns, its table is the five
    labelled rows. *)
Theorem metric_and_financial_rows_are_labelled :
  (forall (w : world) (design_summary : pyval) (size : float) (metrics : table),
      design_metrics w design_summary = Ok (size, metrics) ->
      labels metrics =
        map PStr [ "Metric"; "System Size"; "Annual Production"; "Number of Panels";
                   "Panel Model"; "Inverter Model"; "Solar Access" ])
  /\ (forall (design_pricing : pyval) (system_size : float) (amounts : table),
        financial_data design_pricing system_size = Ok amounts ->
        labels amounts =
          map PStr [ "Item"; "System Price"; "Price per Watt"; "Federal Tax Credit";
                     "Net System Cost" ]).
Proof.
  split.
  - intros w design_summary size metrics Hm.
    unfold design_metrics in Hm. exc_cases Hm. now injection Hm as <- <-.
  - intros design_pricing system_size amounts Hf.
    unfold financial_data in Hf. exc_cases Hf. now injection Hf as <-.
Qed.

Lemma metric_and_financial_rows_are_labelled_witness :
  exists size metrics amounts,
    design_metrics offline (PDict []) = Ok (size, metrics)
    /\ financial_data (PDict [("system_price", PInt 2500)]) 4 = Ok amounts
    /\ List.length (labels metrics) = 7%nat
    /\ List.length (labels amounts) = 5%nat.
Proof.
  eexists _, _, _. split; [vm_compute; reflexivity|]. split; [vm_compute; reflexivity|].
  destruct metric_and_financial_rows_are_labelled as [Hm Hf].
  rewrite (Hm offline (PDict []) _ _ ltac:(vm_compute; reflexivity)).
  rewrite (Hf (PDict [("system_price", PInt 2500)]) 4 _ ltac:(vm_compute; reflexivity)).
  split; reflexivity.
Defined.

(** The default of "arrays" stands in for a missing key only: a design whose
    "arrays" list is empty never yields metrics ([arrays[0]] raises
    IndexError, unless an earlier lookup raised). *)
Theorem empty_arrays_raise
  (w : world) (design_summary : pyval) (design_info : list (string * pyval)) :
  py_get design_summary "design" (PDict []) = Ok (PDict design_info) ->
  lookup "arrays" design_info = Some (PList []) ->
  raises (design_metrics w design_summary) = true.
Proof.
  intros Hd Ha. unfold design_metrics. rewrite Hd. cbn [exc_bind].
  assert (Harrays : py_get (PDict design_info) "arrays" (PList [PDict []]) = Ok (PList []))
    by (cbn [py_get]; now rewrite Ha).
  repeat match goal with
         | |- context [exc_bind (py_get (PDict design_info) "arrays" _) _] =>
             rewrite Harrays; cbn [exc_bind py_first raises]; reflexivity
         | |- context [exc_bind ?m _] =>
             let E := fresh "E" in
             destruct m eqn:E; cbn [exc_bind raises]; try reflexivity
         end.
Qed.

Lemma empty_arrays_raise_witness :
  design_metrics offline no_arrays = Raise IndexError
  /\ raises (design_metrics offline no_arrays) = true.
Proof.
  split; [reflexivity|].
  exact (empty_arrays_raise offline no_arrays [("arrays", PList [])] eq_refl eq_refl).
Defined.

(** A price that is no number (a str, null, a list, a mapping) makes the
    financial mapper raise: the format code of the first row refuses it. *)
Theorem price_must_be_a_number
  (design_pricing price : pyval) (system_size : float) :
  py_get design_pricing "system_price" (PInt 0) = Ok price ->
  as_number price = None ->
  raises (financial_data design_pricing system_size) = true.
Proof.
  intros Hp Hn. unfold financial_data. rewrite Hp. cbn [exc_bind].
  unfold py_format_f. rewrite Hn. now destruct price.
Qed.

Lemma price_must_be_a_number_witness :
  financial_data price_as_text 4 = Raise ValueError
  /\ raises (financial_data price_as_text 4) = true.
Proof.
  split; [reflexivity|].
  exact (price_must_be_a_number price_as_text (PStr "1000") 4 eq_refl eq_refl).
Defined.

(** ** The bill of materials *)






(** ** Images and downloads *)

(** [add_image] never raises: it either appends an image and a spacer and
    returns [True], or changes nothing and returns [False]; the image it
    appends is never drawn higher than six inches. *)
Theorem add_image_caps_the_height (image : image_data) (s : state) :
  (exists drawWidth drawHeight,
      add_image image s =
        (Ok true,
         {| elements := elements s ++ [Image drawWidth drawHeight; Spacer 1 (0.25 * inch)];
            trace := trace s; fetches := fetches s; document := document s |})
      /\ PrimFloat.ltb (6 * inch) drawHeight = false)
  \/ add_image image s = (Ok false, s).
Proof.
  unfold add_image. destruct image as [size|]; [|now right].
  unfold image_size. destruct (aspect_ratio size) as [aspect|]; [|now right].
  cbn [exc_bind].
  destruct (PrimFloat.ltb (6 * inch) (doc_width * 0.8 * aspect)) eqn:E.
  - destruct (py_truediv (PFloat (6 * inch)) (PFloat aspect)) as [drawWidth|];
      [|now right].
    left. exists drawWidth, (6 * inch). split; reflexivity.
  - left. exists (doc_width * 0.8), (doc_width * 0.8 * aspect). split; [reflexivity | exact E].
Qed.

(** [download_image] never raises: for every URL, a [str] or not, it
    returns, having logged one download call and nothing else; and what it
    returns is data exactly for a [str] URL whose reply has no error status
    and a content type that starts with "image/", [None] otherwise. *)
Theorem download_returns_images_only (w : world) (url : pyval) (s : state) :
  exists result,
    download_image w url s =
      (Ok result,
       {| elements := elements s; trace := trace s ++ [DownloadImage url];
          fetches := S (fetches s); document := document s |})
    /\ (forall data,
          result = Some data <->
          exists u status content_type,
            url = PStr u
            /\ image_reply w (fetches s) u = Reply status (content_type, data)
            /\ http_error status = false
            /\ is_prefix "image/" content_type = true)
    /\ (result = None <->
        forall u status content_type data,
          url = PStr u ->
          image_reply w (fetches s) u = Reply status (content_type, data) ->
          http_error status = true \/ is_prefix "image/" content_type = false).
Proof.
  exists (image_response w (fetches s) url). split; [apply download_image_run|].
  unfold image_response. split; [intros data; split | split].
  - intros H. destruct url as [| | | |u| |]; try discriminate H.
    destruct (image_reply w (fetches s) u) as [|status [content_type content]] eqn:Er;
      [discriminate H|].
    destruct (http_error status) eqn:Es; [discriminate H|].
    destruct (is_prefix "image/" content_type) eqn:Ec; [|discriminate H].
    cbn [negb] in H. injection H as ->. now exists u, status, content_type.
  - intros (u & status & content_type & -> & -> & -> & ->). reflexivity.
  - intros H u status content_type data -> Hr. rewrite Hr in H.
    destruct (http_error status); [now left|].
    destruct (is_prefix "image/" content_type); [discriminate H | now right].
  - intros H. destruct url as [| | | |u| |]; try reflexivity.
    destruct (image_reply w (fetches s) u) as [|status [content_type content]] eqn:Er;
      [reflexivity|].
    destruct (H u status content_type content eq_refl Er) as [-> | Hc];
      [reflexivity|].
    rewrite Hc. now destruct (http_error status).
Qed.

(** A pricing body that is no mapping (a JSON array, say) ends the run in
    failure right after the pricing request: neither the assets nor the
    project are requested and nothing is appended. *)
Theorem pricing_that_is_no_mapping_is_fatal
  (w : world) (design_id : string) (project_id : option string) (s : state) :
  fst (validate_credentials w s) = Ok true ->
  truthy (response_json w ("/designs/" ++ design_id ++ "/summary")) = true ->
  is_dict (response_json w ("/designs/" ++ design_id ++ "/pricing")) = false ->
  generate_design_report w design_id project_id s =
    (false,
     {| elements := elements s;
        trace := trace s ++ [CheckCredentials;
                             ApiRequest ("/designs/" ++ design_id ++ "/summary");
                             ApiRequest ("/designs/" ++ design_id ++ "/pricing")];
        fetches := fetches s; document := document s |}).
Proof.
  intros Hvalid Hsummary Hpricing. unfold generate_design_report, report_body.
  rewrite (bind_ok _ _ s (snd (validate_credentials w s)) true).
  2:{ rewrite <- Hvalid. now destruct (validate_credentials w s). }
  cbn [negb]. rewrite validate_credentials_run. unfold get_design_summary.
  rewrite (bind_ok _ _ _ _ _ (make_request_run w _ _)), Hsummary. cbn [negb].
  unfold get_design_pricing.
  match goal with
  | |- context [bind (bind (_make_request w ?e) ?k1) ?k2 ?s1] =>
      assert (Hraise : bind (_make_request w e) k1 s1
                       = (Raise AttributeError, snd (_make_request w e s1)))
  end.
  { rewrite (bind_ok _ _ _ _ _ (make_request_run w _ _)). unfold lift.
    destruct (response_json w ("/designs/" ++ design_id ++ "/pricing"));
      try reflexivity; discriminate Hpricing. }
  rewrite (bind_raise _ _ _ _ _ Hraise).
  cbn [snd _make_request bind emit ret elements trace fetches document].
  now rewrite <- !app_assoc.
Qed.

Lemma pricing_that_is_no_mapping_is_fatal_witness :
  generate_design_report pricing_as_list "d1" None initial =
    (false,
     {| elements := [];
        trace := [CheckCredentials; ApiRequest "/designs/d1/summary";
                  ApiRequest "/designs/d1/pricing"];
        fetches := 0; document := None |}).
Proof.
  exact (pricing_that_is_no_mapping_is_fatal pricing_as_list "d1" None initial
           eq_refl eq_refl eq_refl).
Defined.

(** ** The cells of the project overview *)

Lemma lstrip_blank (s : string) : blank s = true -> lstrip s = "".
Proof.
  induction s as [|c s IH]; [reflexivity|]. cbn [blank lstrip].
  intros H. apply andb_prop in H as [-> H]. now apply IH.
Qed.

Lemma rstrip_blank (s : string) : blank s = true -> rstrip s = "".
Proof.
  induction s as [|c s IH]; [reflexivity|]. cbn [blank rstrip].
  intros H. apply andb_prop in H as [-> H]. now rewrite (IH H).
Qed.

Lemma lstrip_not_blank (s : string) : blank s = false -> blank (lstrip s) = false.
Proof.
  induction s as [|c s IH]; [discriminate|]. cbn [blank lstrip].
  destruct (is_space c) eqn:E; cbn [andb]; [exact IH|].
  intros _. cbn [blank]. now rewrite E.
Qed.

Lemma rstrip_not_blank (s : string) : blank s = false -> rstrip s <> "".
Proof.
  induction s as [|c s IH]; [discriminate|]. cbn [blank rstrip]. intros H.
  destruct (blank s) eqn:Eb.
  - rewrite (rstrip_blank s Eb). rewrite andb_true_r in H. now rewrite H.
  - specialize (IH eq_refl). destruct (rstrip s); [now elim IH | discriminate].
Qed.

Lemma strip_blank (s : string) : blank s = true -> strip s = "".
Proof. intros H. unfold strip. now rewrite (lstrip_blank s H). Qed.

Lemma strip_not_blank (s : string) : blank s = false -> strip s <> "".
Proof. intros H. unfold strip. now apply rstrip_not_blank, lstrip_not_blank. Qed.

(** The rows of a well-formed payload, cell by cell. *)
Lemma overview_of_well_formed (w : world) (d p : list (string * pyval)) :
  lookup "project" d = Some (PDict p) ->
  well_formed_project (PDict d) = true ->
  exists address status project_type,
    format_project_overview w (PDict d) =
      Ok (Some
            [ row "Project Details" (PStr "Information");
              row "Project Name" (get_or p "name" (PStr "N/A"));
              row "Customer Name"
                  (PStr (if String.eqb (strip (full_name w p)) ""
                         then "N/A" else strip (full_name w p)));
              row "Street Address" (get_or address "street_address" (PStr "N/A"));
              row "City" (get_or address "city" (PStr "N/A"));
              row "State" (get_or address "region" (PStr "N/A"));
              row "ZIP Code" (get_or address "postal_code" (PStr "N/A"));
              row "Created Date"
                  match lookup "created_at" p with
                  | Some (PStr created_at) =>
                      match long_date w (replace_Z created_at) with
                      | Some date => PStr date
                      | None => PStr created_at
                      end
                  | Some value => value
                  | None => PStr "N/A"
                  end;
              row "Status" status;
              row "Property Type" project_type ]).
Proof.
  intros Ep H. cbn [well_formed_project] in H. rewrite Ep in H.
  unfold format_project_overview.
  assert (Hk : has_key "project" d = true) by (unfold has_key; now rewrite Ep).
  rewrite (lookup_nonempty _ _ _ Ep). cbn [negb py_in exc_bind py_getitem].
  rewrite Hk, Ep. cbn [negb exc_bind py_get].
  apply andb_prop in H as [H Htype]. apply andb_prop in H as [Hloc Hstatus].
  assert (Hl : exists l, match lookup "location" p with Some x => x | None => PDict [] end = PDict l
                         /\ optional is_dict (lookup "property_address_components" l) = true).
  { destruct (lookup "location" p) as [[| | | | | |l]|]; try discriminate Hloc.
    - exists l. auto.
    - exists []. auto. }
  destruct Hl as (l & -> & Ha). cbn [py_get exc_bind].
  assert (Hc : exists a, match lookup "property_address_components" l with
                         | Some x => x | None => PDict [] end = PDict a).
  { destruct (lookup "property_address_components" l) as [[| | | | | |a]|];
      try discriminate Ha; eauto. }
  destruct Hc as (a & ->). cbn [exc_bind].
  assert (Hs : exists st, py_title w match lookup "status" p with
                                   | Some x => x | None => PStr "N/A" end = Ok st).
  { destruct (lookup "status" p) as [[| | | | c | |]|]; try discriminate Hstatus;
      cbn [py_title]; eauto. }
  assert (Ht : exists ty, py_title w match lookup "project_type" p with
                                   | Some x => x | None => PStr "N/A" end = Ok ty).
  { destruct (lookup "project_type" p) as [[| | | | c | |]|]; try discriminate Htype;
      cbn [py_title]; eauto. }
  destruct Hs as (st & Hs), Ht as (ty & Ht).
  exists a, st, ty. unfold full_name, get_or.
  destruct (lookup "created_at" p) as [[| | | | c | |]|]; cbn [exc_bind];
    try (rewrite Hs, Ht; reflexivity);
    destruct (long_date w _); cbn [exc_bind]; rewrite Hs, Ht; reflexivity.
Qed.

(** For a well-formed payload the "Created Date" cell holds the long date
    when the text parses, the text itself as it came when it does not, a
    value that is no text unchanged, and "N/A" when the key is absent. *)
Theorem created_date_falls_back_to_the_raw_value
  (w : world) (d p : list (string * pyval)) :
  lookup "project" d = Some (PDict p) ->
  well_formed_project (PDict d) = true ->
  exists rows,
    format_project_overview w (PDict d) = Ok (Some rows)
    /\ cell "Created Date" rows
       = Some match lookup "created_at" p with
              | Some (PStr created_at) =>
                  match long_date w (replace_Z created_at) with
                  | Some date => PStr date
                  | None => PStr created_at
                  end
              | Some value => value
              | None => PStr "N/A"
              end.
Proof.
  intros Ep H.
  destruct (overview_of_well_formed w d p Ep H) as (a & st & ty & ->).
  eexists. split; reflexivity.
Qed.

Lemma created_date_falls_back_to_the_raw_value_witness :
  exists rows,
    format_project_overview offline anonymous_project = Ok (Some rows)
    /\ cell "Created Date" rows = Some (PStr "last Tuesday").
Proof.
  exact (created_date_falls_back_to_the_raw_value offline
           [("project", PDict anonymous_fields)] anonymous_fields eq_refl eq_refl).
Defined.

(** For a well-formed payload the "Customer Name" cell is never empty: it
    holds "N/A" when the two names are blank or absent, and otherwise the
    joined names without the blanks around them. *)
Theorem customer_name_is_never_empty
  (w : world) (d p : list (string * pyval)) :
  lookup "project" d = Some (PDict p) ->
  well_formed_project (PDict d) = true ->
  exists rows name,
    format_project_overview w (PDict d) = Ok (Some rows)
    /\ cell "Customer Name" rows = Some (PStr name)
    /\ name <> ""
    /\ (blank (full_name w p) = true -> name = "N/A")
    /\ (blank (full_name w p) = false -> name = strip (full_name w p)).
Proof.
  intros Ep H.
  destruct (overview_of_well_formed w d p Ep H) as (a & st & ty & ->).
  eexists _, _. split; [reflexivity|]. split; [reflexivity|].
  destruct (blank (full_name w p)) eqn:Eb.
  - rewrite (strip_blank _ Eb). cbn. repeat split; auto; discriminate.
  - pose proof (strip_not_blank _ Eb) as Hne.
    destruct (String.eqb (strip (full_name w p)) "") eqn:Ee.
    + apply String.eqb_eq in Ee. now elim Hne.
    + repeat split; auto; discriminate.
Qed.

Lemma customer_name_is_never_empty_witness :
  (exists rows,
      format_project_overview offline anonymous_project = Ok (Some rows)
      /\ cell "Customer Name" rows = Some (PStr "N/A"))
  /\ (exists rows,
        format_project_overview offline (PDict [("project", PDict blank_names)])
          = Ok (Some rows)
        /\ cell "Customer Name" rows = Some (PStr "N/A")).
Proof.
  split.
  - destruct (customer_name_is_never_empty offline
                [("project", PDict anonymous_fields)] anonymous_fields eq_refl eq_refl)
      as (rows & name & Hrows & Hcell & _ & Hblank & _).
    exists rows. split; [exact Hrows|]. rewrite Hcell, (Hblank eq_refl). reflexivity.
  - destruct (customer_name_is_never_empty offline
                [("project", PDict blank_names)] blank_names eq_refl eq_refl)
      as (rows & name & Hrows & Hcell & _ & Hblank & _).
    exists rows. split; [exact Hrows|]. rewrite Hcell, (Hblank eq_refl). reflexivity.
Defined.

(** ** The order of the sections *)

Lemma subseq_nil (m : list string) : subseq [] m = true.
Proof. now destruct m. Qed.

Lemma subseq_tail (x : string) (l m : list string) :
  subseq (x :: l) m = true -> subseq l m = true.
Proof.
  revert x l. induction m as [|y m IH]; intros x l H; [discriminate H|].
  cbn [subseq] in H. destruct l as [|x' l]; [reflexivity|]. cbn [subseq].
  destruct (String.eqb x y).
  - destruct (String.eqb x' y); [now apply (IH x') | exact H].
  - destruct (String.eqb x' y); [apply (IH x'), (IH x), H | now apply (IH x)].
Qed.

Lemma subseq_cons_r (y : string) (l m : list string) :
  subseq l m = true -> subseq l (y :: m) = true.
Proof.
  intros H. destruct l as [|x l]; [reflexivity|]. cbn [subseq].
  destruct (String.eqb x y); [now apply (subseq_tail x) | exact H].
Qed.

Lemma subseq_app (l1 l2 m1 m2 : list string) :
  subseq l1 m1 = true -> subseq l2 m2 = true -> subseq (l1 ++ l2) (m1 ++ m2) = true.
Proof.
  revert l1. induction m1 as [|y m1 IH]; intros l1 H1 H2.
  - destruct l1; [exact H2 | discriminate H1].
  - destruct l1 as [|x l1].
    + cbn [app]. apply subseq_cons_r. exact (IH [] (subseq_nil m1) H2).
    + cbn [app subseq] in *. destruct (String.eqb x y).
      * now apply IH.
      * now apply (IH (x :: l1)).
Qed.

Lemma heads_ret {A} (a : A) : heads [] (ret a).
Proof. intros s. exists []. now rewrite app_nil_r. Qed.

Lemma heads_lift {A} (m : exc A) : heads [] (lift m).
Proof. intros s. exists []. now rewrite app_nil_r. Qed.

Lemma heads_emit (e : event) : heads [] (emit e).
Proof. intros s. exists []. cbn. now rewrite app_nil_r. Qed.

Lemma heads_bind {A B} (a1 a2 : list string) (m : M A) (k : A -> M B) :
  heads a1 m -> (forall a, heads a2 (k a)) -> heads (a1 ++ a2) (bind m k).
Proof.
  intros Hm Hk s. unfold bind. destruct (Hm s) as (added1 & He1 & Hs1).
  destruct (m s) as [[a|e] s1]; cbn [snd] in *.
  - destruct (Hk a s1) as (added2 & He2 & Hs2). exists (added1 ++ added2).
    rewrite He2, He1, app_assoc. split; [reflexivity|].
    unfold headers_of. rewrite flat_map_app. now apply subseq_app.
  - exists added1. split; [exact He1|].
    rewrite <- (app_nil_r (headers_of added1)). apply subseq_app; [exact Hs1|].
    apply subseq_nil.
Qed.

(** The same for a stage that appends no header. *)
Lemma heads_then {A B} (allowed : list string) (m : M A) (k : A -> M B) :
  heads [] m -> (forall a, heads allowed (k a)) -> heads allowed (bind m k).
Proof. intros Hm Hk. now apply (heads_bind [] allowed). Qed.

Lemma heads_weaken {A} (a1 a2 : list string) (m : M A) :
  heads a1 m -> heads (a1 ++ a2) m.
Proof.
  intros H s. destruct (H s) as (added & He & Hs). exists added. split; [exact He|].
  rewrite <- (app_nil_r (headers_of added)). apply subseq_app; [exact Hs|].
  apply subseq_nil.
Qed.

Lemma heads_append (fs : list flowable) : headers_of fs = [] -> heads [] (append fs).
Proof. intros H s. exists fs. cbn. now rewrite H. Qed.

Lemma heads_add_header (text : string) : heads [text] (add_header text).
Proof. intros s. exists [Paragraph text ReportHeader; Spacer 1 (0.25 * inch)]. cbn.
  now rewrite String.eqb_refl. Qed.

Lemma heads_none {A} (allowed : list string) (m : M A) : heads [] m -> heads allowed m.
Proof. apply (heads_weaken [] allowed). Qed.

Lemma heads_download_with_retries (w : world) (url : pyval) (tries : list Z) :
  heads [] (download_with_retries w url tries).
Proof.
  induction tries as [|attempt rest IH]; cbn [download_with_retries]; [apply heads_ret|].
  apply heads_then.
  { unfold download_image. apply heads_then; [apply heads_emit | intros _].
    apply heads_then; [|intros; apply heads_ret].
    intros s. exists []. cbn. now rewrite app_nil_r. }
  intros image. apply heads_then.
  { destruct image as [[size|]|]; try apply heads_ret. unfold add_image.
    destruct (image_size size 0.8) as [[dw dh]|]; [|apply heads_ret].
    apply heads_then; [now apply heads_append | intros; apply heads_ret]. }
  intros [|]; [apply heads_ret|].
  apply heads_then; [|intros _; exact IH].
  destruct (attempt <? max_retries - 1)%Z; [apply heads_emit | apply heads_ret].
Qed.

Lemma heads_embed_images (w : world) (assets : list pyval) :
  forall images_added, heads [] (embed_images w assets images_added).
Proof.
  induction assets as [|asset rest IH]; intros images_added; cbn [embed_images];
    [apply heads_ret|].
  apply heads_then; [apply heads_lift | intros url].
  destruct (negb (truthy url)); [apply IH|].
  apply heads_then; [apply heads_download_with_retries | intros; apply IH].
Qed.

Lemma heads_visualization_section (w : world) (design_assets : pyval) :
  heads ["System Design Visualization"] (visualization_section w design_assets).
Proof.
  unfold visualization_section.
  apply heads_then; [apply heads_lift | intros assets].
  destruct (truthy assets); [|apply heads_none, heads_ret].
  apply (heads_bind ["System Design Visualization"] []);
    [apply heads_add_header | intros _].
  apply heads_then; [apply heads_lift | intros items].
  apply heads_then; [apply heads_lift | intros [|image images]];
    [now apply heads_append|].
  apply heads_then; [apply heads_embed_images | intros [|]];
    [apply heads_ret | now apply heads_append].
Qed.

Lemma heads_project_section (w : world) (project_data : pyval) :
  heads ["Project Overview"] (project_section w project_data).
Proof.
  unfold project_section. destruct (truthy project_data); [|apply heads_none, heads_ret].
  apply (heads_bind ["Project Overview"] []); [apply heads_add_header | intros _].
  apply heads_then; [apply heads_lift | intros [[|r rows]|]];
    first [now apply heads_append | apply heads_ret].
Qed.

Lemma heads_design_section (w : world) (design_summary : pyval) :
  heads ["System Design Details"] (design_section w design_summary).
Proof.
  unfold design_section.
  apply (heads_bind ["System Design Details"] []); [apply heads_add_header | intros _].
  apply heads_then; [apply heads_lift | intros metrics].
  apply heads_then; [now apply heads_append | intros; apply heads_ret].
Qed.

Lemma heads_financial_section (design_pricing : pyval) (system_size : float) :
  heads ["Financial Overview"] (financial_section design_pricing system_size).
Proof.
  unfold financial_section. destruct (truthy design_pricing); [|apply heads_none, heads_ret].
  apply (heads_bind ["Financial Overview"] []); [apply heads_add_header | intros _].
  apply heads_then; [apply heads_lift | intros; now apply heads_append].
Qed.

Lemma heads_report_body (w : world) (d : string) (p : option string) :
  heads section_headers (report_body w d p).
Proof.
  unfold report_body.
  apply heads_then; [|intros valid].
  { unfold validate_credentials.
    apply heads_then; [apply heads_emit | intros; apply heads_ret]. }
  destruct (negb valid); [apply heads_none, heads_ret|].
  assert (Hrequest : forall endpoint, heads [] (_make_request w endpoint)).
  { intros endpoint. unfold _make_request.
    apply heads_then; [apply heads_emit | intros; apply heads_ret]. }
  apply heads_then; [apply Hrequest | intros design_summary].
  destruct (negb (truthy design_summary)); [apply heads_none, heads_ret|].
  apply heads_then; [|intros design_pricing].
  { unfold get_design_pricing. apply heads_then; [apply Hrequest | intros; apply heads_lift]. }
  apply heads_then; [apply Hrequest | intros design_assets].
  apply heads_then; [|intros project_data].
  { destruct (given p); [apply Hrequest | apply heads_ret]. }
  apply heads_then; [|intros _].
  { destruct (logo_file w) as [logo|]; [|apply heads_ret]. unfold add_logo.
    destruct logo as [size|]; [|apply heads_ret].
    destruct (aspect_ratio size); [|apply heads_ret].
    apply heads_then; [now apply heads_append | intros; apply heads_ret]. }
  apply heads_then; [now apply heads_append | intros _].
  apply (heads_bind ["Project Overview"]
           ["System Design Details"; "Financial Overview"; "System Design Visualization"]);
    [apply heads_project_section | intros _].
  apply (heads_bind ["System Design Details"]
           ["Financial Overview"; "System Design Visualization"]);
    [apply heads_design_section | intros system_size].
  apply (heads_bind ["Financial Overview"] ["System Design Visualization"]);
    [apply heads_financial_section | intros _].
  apply (heads_bind ["System Design Visualization"] []);
    [apply heads_visualization_section | intros _].
  intros s. exists []. unfold generate.
  destruct (layout w (elements s)); cbn; now rewrite app_nil_r.
Qed.

(** The section headers a run appends come in the order Project Overview,
    System Design Details, Financial Overview, System Design Visualization,
    each at most once. *)
Theorem sections_come_in_order
  (w : world) (design_id : string) (project_id : option string) (s : state) :
  exists added,
    elements (snd (generate_design_report w design_id project_id s)) = elements s ++ added
    /\ subseq (headers_of added) section_headers = true.
Proof.
  destruct (heads_report_body w design_id project_id s) as (added & He & Hs).
  exists added. unfold generate_design_report.
  destruct (report_body w design_id project_id s) as [[success|e] s']; now split.
Qed.

(** ** The credential check *)

(** [validate_credentials] never raises and makes one call; it answers
    [True] exactly when a reply arrived whose status is no error status (the
    codes 401, 403 and 404 differ from the other errors in the log line
    only). *)
Theorem credentials_are_valid_without_an_error_status (w : world) (s : state) :
  (exists valid, validate_credentials w s
                 = (Ok valid,
                    {| elements := elements s; trace := trace s ++ [CheckCredentials];
                       fetches := fetches s; document := document s |}))
  /\ (fst (validate_credentials w s) = Ok true <->
      exists status, tenant_reply w = Reply status tt /\ http_error status = false).
Proof.
  split; [eexists; reflexivity|].
  cbn. destruct (tenant_reply w) as [|status []].
  - split; [discriminate | intros (status & H & _); discriminate H].
  - split.
    + intros H. exists status. split; [reflexivity|].
      destruct ((status =? 401) || (status =? 403) || (status =? 404))%Z;
        [discriminate H|].
      destruct (http_error status); [discriminate H | reflexivity].
    + intros (status' & H & Herr). injection H as <-.
      rewrite Herr. unfold http_error in Herr.
      destruct (status =? 401)%Z eqn:E1; [apply Z.eqb_eq in E1; subst; discriminate Herr|].
      destruct (status =? 403)%Z eqn:E3; [apply Z.eqb_eq in E3; subst; discriminate Herr|].
      destruct (status =? 404)%Z eqn:E4; [apply Z.eqb_eq in E4; subst; discriminate Herr|].
      reflexivity.
Qed.

Lemma add_image_caps_the_height_witness :
  add_image tall_picture initial =
    (Ok true,
     {| elements := [Image 108 (6 * inch); Spacer 1 (0.25 * inch)];
        trace := []; fetches := 0; document := None |}).
Proof.
  destruct (add_image_caps_the_height tall_picture initial)
    as [(drawWidth & drawHeight & H & _)|H]; vm_compute; reflexivity.
Defined.
